(** * coin-ai-agent: the chatbot's action providers

    A shallow embedding of the market-analysis and investment actions of
    [typescript/examples/langchain-cdp-chatbott/chatbot.ts] and of the earlier
    memecoin-only chatbot of the same repository.

    JavaScript numbers are IEEE-754 binary64 values; they are modelled by
    Rocq's primitive floats, whose operations are the same binary64
    operations (division by zero gives an infinity or NaN, comparisons with
    NaN are false).  Asynchronous calls are sequential here: every [await]
    is a bind of the effect monad [Eff]. *)

From Stdlib Require Import ZArith Floats String Ascii List Bool Lia DecimalString.
Import ListNotations.

Set Warnings "-inexact-float".
#[local] Open Scope string_scope.

(* ===================================================================== *)
(** ** The fragment of JavaScript the program relies on *)
(* ===================================================================== *)

Module JS.

(** [number]: a binary64 float. *)
Definition number := float.
Bind Scope float_scope with number.

(** [Math.abs]. *)
Definition Math_abs (x : number) : number := PrimFloat.abs x.

(** Truthiness of a number: [0], [-0] and [NaN] are falsy. *)
Definition truthy_number (x : number) : bool :=
  negb (PrimFloat.eqb x 0%float || PrimFloat.is_nan x).

(** Truthiness of a string: only the empty string is falsy. *)
Definition truthy_string (s : string) : bool :=
  match s with EmptyString => false | String _ _ => true end.

(** [x || d] where [x] is [number | undefined]. *)
Definition number_or (x : option number) (d : number) : number :=
  match x with
  | Some v => if truthy_number v then v else d
  | None => d
  end.

(** [!s] where [s] is [string | undefined]. *)
Definition not_string (s : option string) : bool :=
  match s with
  | Some v => negb (truthy_string v)
  | None => true
  end.

(** The text of a [string | undefined] known to be truthy. *)
Definition string_value (s : option string) : string :=
  match s with Some v => v | None => "" end.

(** Upper case for ASCII text: what [String.prototype.toUpperCase] does
    to a string of ASCII characters. *)
Definition upper_ascii (c : ascii) : ascii :=
  let n := nat_of_ascii c in
  if (97 <=? n)%nat && (n <=? 122)%nat then ascii_of_nat (n - 32) else c.

Fixpoint ascii_toUpperCase (s : string) : string :=
  match s with
  | EmptyString => EmptyString
  | String c rest => String (upper_ascii c) (ascii_toUpperCase rest)
  end.

(** The decimal text of an array length. *)
Definition length_toString (n : nat) : string :=
  NilZero.string_of_uint (Nat.to_uint n).

(** [Number::toString], the conversion a template literal applies to a
    number.  It is a function of the language, taken as given. *)
Class NumberToString := Number_toString : number -> string.

(** Values a [catch] clause can receive. *)
Inductive Thrown : Type :=
| AxiosError (message : string) (status : option Z)
    (* an Error with [axios.isAxiosError]; [status] is [response?.status] *)
| ErrorObject (message : string)      (* any other instance of Error *)
| OtherValue (description : string).  (* a thrown value that is no Error *)

Definition isAxiosError (e : Thrown) : bool :=
  match e with AxiosError _ _ => true | _ => false end.

Definition response_status (e : Thrown) : option Z :=
  match e with AxiosError _ st => st | _ => None end.

(** [error instanceof Error ? error.message : "Unknown error"]. *)
Definition message_or_unknown (e : Thrown) : string :=
  match e with
  | AxiosError m _ => m
  | ErrorObject m => m
  | OtherValue _ => "Unknown error"
  end.

(** [st === k] for [st : number | undefined] and an integer literal [k]. *)
Definition status_is (st : option Z) (k : Z) : bool :=
  match st with Some s => Z.eqb s k | None => false end.

(** How a call completes. *)
Inductive Outcome (A : Type) : Type :=
| Returned (a : A)
| Raised (e : Thrown).
Arguments Returned {A} a.
Arguments Raised {A} e.

(** Lower case for ASCII text: what [String.prototype.toLowerCase] does
    to a string of ASCII characters. *)
Definition lower_ascii (c : ascii) : ascii :=
  let n := nat_of_ascii c in
  if (65 <=? n)%nat && (n <=? 90)%nat then ascii_of_nat (n + 32) else c.

Fixpoint ascii_toLowerCase (s : string) : string :=
  match s with
  | EmptyString => EmptyString
  | String c rest => String (lower_ascii c) (ascii_toLowerCase rest)
  end.

(** White space and line terminators, among the ASCII characters. *)
Definition is_space (c : ascii) : bool :=
  let n := nat_of_ascii c in
  ((9 <=? n)%nat && (n <=? 13)%nat) || (n =? 32)%nat.

Fixpoint trimStart (s : string) : string :=
  match s with
  | EmptyString => EmptyString
  | String c rest => if is_space c then trimStart rest else s
  end.

Fixpoint trimEnd (s : string) : string :=
  match s with
  | EmptyString => EmptyString
  | String c rest =>
      match trimEnd rest with
      | EmptyString => if is_space c then EmptyString else String c EmptyString
      | kept => String c kept
      end
  end.

(** Trimming for ASCII text: what [String.prototype.trim] does to a string
    of ASCII characters. *)
Definition ascii_trim (s : string) : string := trimEnd (trimStart s).

(** [x || d] where [x] is [string | undefined]. *)
Definition string_or (x : option string) (d : string) : string :=
  match x with
  | Some v => if truthy_string v then v else d
  | None => d
  end.

(** [x || undefined] where [x] is [string | null]. *)
Definition string_or_undefined (x : option string) : option string :=
  match x with
  | Some v => if truthy_string v then Some v else None
  | None => None
  end.

(** A [string | undefined] inside a template literal. *)
Definition template_text (x : option string) : string :=
  match x with Some v => v | None => "undefined" end.

(** The line feed, written ["\n"] in the source. *)
Definition LF : string := String (ascii_of_nat 10) EmptyString.

(** [s.replace(/\\n/g, "\n")]: every backslash followed by [n], scanning
    from the left, becomes a line feed. *)
Fixpoint replace_backslash_n (s : string) : string :=
  match s with
  | EmptyString => EmptyString
  | String c rest =>
      match rest with
      | String d rest' =>
          if Ascii.eqb c "\"%char && Ascii.eqb d "n"%char
          then String (ascii_of_nat 10) (replace_backslash_n rest')
          else String c (replace_backslash_n rest)
      | EmptyString => String c EmptyString
      end
  end.

(** [Array.prototype.join]. *)
Definition join (sep : string) (parts : list string) : string :=
  String.concat sep parts.

(** [String.prototype.toUpperCase], [toLowerCase] and [trim].  They are
    functions of the language, defined on all of Unicode, and are taken as
    given: the program is modelled for whatever they are. *)
Class StringMethods : Type := {
  toUpperCase : string -> string;
  toLowerCase : string -> string;
  trim : string -> string
}.

(** The three methods on ASCII text, for the scenarios. *)
Definition ascii_methods : StringMethods :=
  {| toUpperCase := ascii_toUpperCase;
     toLowerCase := ascii_toLowerCase;
     trim := ascii_trim |}.

End JS.
Export JS.

(* ===================================================================== *)
(** ** Observable effects *)
(* ===================================================================== *)

(** The query string and headers of the market-data request. *)
Record Request : Type := mkRequest {
  url : string;
  vs_currency : string;
  category_param : string;
  order : string;
  per_page : number;
  sparkline : bool;
  accept : string;
  x_cg_demo_api_key : string
}.

Inductive Event : Type :=
| HttpGet (r : Request)
| ConsoleLog (line : string)
| ConsoleError (line : string) (e : Thrown)
| SwapCall (tokenAddress : string) (amount slippage : number).
    (* entry into [performSwapTransaction] with its arguments, recorded so
       that the calls of the swap can be counted *)

(** A computation: the events it emitted, in order, and how it completed. *)
Definition Eff (A : Type) : Type := (list Event * Outcome A)%type.

Definition ret {A} (a : A) : Eff A := ([], Returned a).

Definition throw {A} (e : Thrown) : Eff A := ([], Raised e).

Definition emit (ev : Event) : Eff unit := ([ev], Returned tt).

Definition bind {A B} (m : Eff A) (k : A -> Eff B) : Eff B :=
  match m with
  | (t1, Returned a) => let (t2, o) := k a in ((t1 ++ t2)%list, o)
  | (t1, Raised e) => (t1, Raised e)
  end.

(** [try { body } catch (error) { handler }]. *)
Definition try_catch {A} (body : Eff A) (handler : Thrown -> Eff A) : Eff A :=
  match body with
  | (t1, Raised e) => let (t2, o) := handler e in ((t1 ++ t2)%list, o)
  | done => done
  end.

(** A promise that is already settled. *)
Definition await {A} (o : Outcome A) : Eff A := ([], o).

Declare Scope eff_scope.
Delimit Scope eff_scope with eff.
Notation "x <- m ;; k" := (bind m (fun x => k))
  (at level 61, m at next level, right associativity) : eff_scope.
Notation "m ;;; k" := (bind m (fun _ => k))
  (at level 61, right associativity) : eff_scope.
#[local] Open Scope eff_scope.

Definition trace {A} (m : Eff A) : list Event := fst m.
Definition outcome {A} (m : Eff A) : Outcome A := snd m.

(** The swap calls among the events of a trace. *)
Definition is_swap (ev : Event) : bool :=
  match ev with SwapCall _ _ _ => true | _ => false end.

Definition swap_calls (t : list Event) : list Event := filter is_swap t.

(* ===================================================================== *)
(** ** Data shared by both chatbots *)
(* ===================================================================== *)

Record CoinGeckoResponse : Type := mkCoin {
  symbol : string;
  current_price : number;
  price_change_percentage_24h : number;
  total_volume : number;
  market_cap : number
}.

(** The object built for each coin by the analysis. *)
Record CoinAnalysis : Type := mkAnalysis {
  a_symbol : string;
  a_price : number;
  a_priceChange24h : number;
  a_volume : number;
  a_marketCap : number;
  a_liquidityScore : number;
  a_riskLevel : string
}.

(** The outside world of one action call: the process environment, the
    market-data provider behind [axios.get] and the clock. *)
Record World : Type := mkWorld {
  COINGECKO_API_KEY : option string;
  provider : Request -> Outcome (list CoinGeckoResponse);
  now_iso : string
}.

Definition axios_get (w : World) (r : Request) : Eff (list CoinGeckoResponse) :=
  emit (HttpGet r) ;;; await (provider w r).

(** What an action hands back: a plain string, or [JSON.stringify] of an
    object (kept as the object). *)
Inductive Reply (P : Type) : Type :=
| Text (s : string)
| Json (p : P).
Arguments Text {P} s.
Arguments Json {P} p.

(** The wallet provider, an external collaborator: [getBalance()] settles
    with the balance, which the program compares to a number with [<], or
    rejects. *)
Record CdpWalletProvider : Type := mkWallet {
  getBalance : Outcome number
}.

(* ===================================================================== *)
(** ** The process and its terminal *)
(* ===================================================================== *)

(** [process.env]. *)
Definition ProcessEnv : Type := string -> option string.

(** What the start-up code and the conversation loops do to the outside. *)
Inductive Output : Type :=
| Log (line : string)                        (* console.log(line) *)
| Warn (line : string)                       (* console.warn(line) *)
| ErrorLine (line : string)                  (* console.error(line) *)
| ErrorText (label detail : string)          (* console.error(label, detail) *)
| ErrorValue (label : string) (e : Thrown)   (* console.error(label, error) *)
| Question (prompt : string)                 (* rl.question(prompt, ...) *)
| Closed                                     (* rl.close() *)
| Forwarded (text : string)                  (* agent.stream of one HumanMessage *)
| Slept (ms : number).                       (* setTimeout(resolve, ms) *)

(** How a piece of the program ends: it returns, the process exits, an
    exception leaves it, or it is still waiting (for a line that has not
    been typed, or in a loop that has not ended). *)
Inductive Ending (A : Type) : Type :=
| Finished (a : A)
| Exited (code : Z)
| Failed (e : Thrown)
| Pending.
Arguments Finished {A} a.
Arguments Exited {A} code.
Arguments Failed {A} e.
Arguments Pending {A}.

(** One chunk of the agent's stream: the keys [agent] and [tools], each
    with the content of its first message when the key is present. *)
Record Chunk : Type := mkChunk {
  agent : option string;
  tools : option string
}.

(** The file [wallet_data.txt] as the start-up code finds it. *)
Inductive WalletFile : Type :=
| NoFile
| Unreadable (e : Thrown)
| Content (text : string).

(* ===================================================================== *)
(** ** chatbot.ts *)
(* ===================================================================== *)

Module Chatbot.

Section Language.
Context {methods : StringMethods}.

(** The keys of [COIN_CATEGORIES]. *)
Inductive CategoryKey : Type := MEME | DEFI | AI | ZK.

Definition COIN_CATEGORIES (k : CategoryKey) : string :=
  match k with
  | MEME => "meme-token"
  | DEFI => "decentralized-finance-defi"
  | AI => "artificial-intelligence"
  | ZK => "zero-knowledge-zk"
  end.

(** The key as the string it is at run time. *)
Definition key_string (k : CategoryKey) : string :=
  match k with
  | MEME => "MEME"
  | DEFI => "DEFI"
  | AI => "AI"
  | ZK => "ZK"
  end.

Definition getRiskLevel (volume marketCap priceChange24h : number) : string :=
  let liquidityRatio := (volume / marketCap)%float in
  let volatility := Math_abs priceChange24h in
  if (liquidityRatio <? 0.05)%float || (50 <? volatility)%float then "VERY_HIGH"
  else if (liquidityRatio <? 0.1)%float || (30 <? volatility)%float then "HIGH"
  else if (liquidityRatio <? 0.15)%float || (20 <? volatility)%float then "MEDIUM"
  else "LOW".

(** The callback of [response.data.map]. *)
Definition analyzeCoin (coin : CoinGeckoResponse) : CoinAnalysis :=
  {| a_symbol := toUpperCase (symbol coin);
     a_price := current_price coin;
     a_priceChange24h := price_change_percentage_24h coin;
     a_volume := total_volume coin;
     a_marketCap := market_cap coin;
     a_liquidityScore := (total_volume coin / market_cap coin * 100)%float;
     a_riskLevel := getRiskLevel (total_volume coin) (market_cap coin)
                      (price_change_percentage_24h coin) |}.

(** [analyzeCoins] returns a string or an array. *)
Inductive Analysis : Type :=
| Message (s : string)
| Coins (l : list CoinAnalysis).

Definition coinsRequest (apiKey category : string) (limit : number) : Request :=
  {| url := "https://api.coingecko.com/api/v3/coins/markets";
     vs_currency := "usd";
     category_param := category;
     order := "volume_desc";
     per_page := limit;
     sparkline := false;
     accept := "application/json";
     x_cg_demo_api_key := apiKey |}.

Definition analyzeCoins (w : World) (category : string) (limit : number)
  : Eff Analysis :=
  try_catch
    (let apiKey := COINGECKO_API_KEY w in
     if not_string apiKey
     then ret (Message "Error: CoinGecko API key not configured.")
     else
       response <- axios_get w (coinsRequest (string_value apiKey) category limit) ;;
       ret (Coins (map analyzeCoin response)))
    (fun error =>
       emit (ConsoleError ("Failed to fetch " ++ category ++ " data:") error) ;;;
       ret (Coins [])).

(** The object [createCoinAnalysisAction] serialises. *)
Record Report : Type := mkReport {
  data : Analysis;
  message : string;
  category : CategoryKey;
  timestamp : string
}.

Section Actions.
Context {toStr : NumberToString}.

(** [schema.limit]: optional, default 10. *)
Definition parse_limit (limit : option number) : number :=
  match limit with Some l => l | None => 10%float end.

(** The [invoke] of the provider [createCoinAnalysisAction(category)]
    builds; [limit] is the argument before the schema's default. *)
Definition createCoinAnalysisAction (w : World) (key : CategoryKey)
    (limit : option number) : Eff (Reply Report) :=
  let limit := parse_limit limit in
  data <- analyzeCoins w (COIN_CATEGORIES key) limit ;;
  ret (Json {| data := data;
               message := "Top " ++ Number_toString limit ++ " "
                          ++ key_string key ++ " coins analyzed";
               category := key;
               timestamp := now_iso w |}).

Definition performSwapTransaction (walletProvider : CdpWalletProvider)
    (tokenAddress : string) (amount slippage : number) : Eff string :=
  emit (SwapCall tokenAddress amount slippage) ;;;
  emit (ConsoleLog ("Swapping " ++ Number_toString amount ++ " ETH for "
                    ++ tokenAddress ++ " with " ++ Number_toString slippage
                    ++ "% slippage tolerance...")) ;;;
  ret "0x1234567890abcdef".

(** The parsed arguments of [invest_in_coin]. *)
Record InvestArgs : Type := mkInvestArgs {
  tokenAddress : string;
  amount : number;
  slippage : option number;
  invest_category : CategoryKey
}.

Definition shortfall_message (balance : number) (args : InvestArgs) : string :=
  "Insufficient mainnet balance (" ++ Number_toString balance
  ++ " ETH). Please top up your wallet to invest "
  ++ Number_toString (amount args) ++ " ETH in "
  ++ key_string (invest_category args) ++ " token.".

Definition invested_message (args : InvestArgs) (txHash : string) : string :=
  "Invested " ++ Number_toString (amount args) ++ " ETH in "
  ++ key_string (invest_category args) ++ " token ("
  ++ tokenAddress args ++ "). TX Hash: " ++ txHash.

(** The [invoke] of [investActionProvider] ([invest_in_coin]), on arguments
    the schema accepted. *)
Definition investActionProvider (walletProvider : CdpWalletProvider)
    (args : InvestArgs) : Eff string :=
  try_catch
    (balance <- await (getBalance walletProvider) ;;
     if (balance <? amount args)%float
     then ret (shortfall_message balance args)
     else
       txHash <- performSwapTransaction walletProvider (tokenAddress args)
                   (amount args) (number_or (slippage args) 2%float) ;;
       ret (invested_message args txHash))
    (fun error => ret ("Investment failed: " ++ message_or_unknown error)).

End Actions.

(** The name [createCoinAnalysisAction(category)] registers. *)
Definition analysisActionName (key : CategoryKey) : string :=
  "analyze_" ++ toLowerCase (key_string key).

Definition requiredVars : list string :=
  ["OPENAI_API_KEY"; "CDP_API_KEY_NAME"; "CDP_API_KEY_PRIVATE_KEY"].

(** The line printed for a missing variable. *)
Definition missingLine (varName : string) : string :=
  varName ++ "=your_" ++ toLowerCase varName ++ "_here".

Definition validateEnvironment (env : ProcessEnv) : list Output * Ending unit :=
  let missingVars := filter (fun varName => not_string (env varName)) requiredVars in
  if (0 <? length missingVars)%nat
  then ((ErrorLine "Error: Required environment variables are not set"
         :: map (fun varName => ErrorLine (missingLine varName)) missingVars),
        Exited 1)
  else if not_string (env "NETWORK_ID")
  then ([Warn "Warning: NETWORK_ID not set, defaulting to base-sepolia testnet"],
        Finished tt)
  else ([], Finished tt).

(** An element of the trend-data response; every field is optional. *)
Record KewordResponse : Type := mkKeword {
  time : option string;
  timePeriod : option string;
  trend : option string;
  volume : option string
}.

Definition keywordsUrl (env : ProcessEnv) : string :=
  "https://api.apify.com/v2/datasets/0VEWlmNYYkmymxOC3/items?token="
  ++ template_text (env "APIFY_KEYWORDS_API_KEY").

(** The callback of [response.data.map] in [fetch_keyword]. *)
Definition formatKeyword (keyword : KewordResponse) : string :=
  ("Keyword: " ++ string_or (trend keyword) "N/A" ++ LF)
  ++ ("Trending since: " ++ string_or (time keyword) "N/A" ++ LF)
  ++ ("Tweets: " ++ string_or (volume keyword) "N/A" ++ LF)
  ++ ("Status: " ++ string_or (timePeriod keyword) "N/A").

(** The [invoke] of [KeyWordActionProvider] ([fetch_keyword]); [get] is
    [axios.get] on the trend-data endpoint. *)
Definition KeyWordActionProvider (env : ProcessEnv)
    (get : string -> Outcome (list KewordResponse)) : Outcome string :=
  match get (keywordsUrl env) with
  | Returned response =>
      let formattedData := join (LF ++ LF) (map formatKeyword response) in
      Returned formattedData
  | Raised error =>
      Returned ("Failed to fetch keywords: " ++ message_or_unknown error)
  end.

(** The object [initializeAgent] hands to the wallet provider. *)
Record WalletConfig : Type := mkWalletConfig {
  apiKeyName : option string;
  apiKeyPrivateKey : option string;
  cdpWalletData : option string;
  networkId : string
}.

(** The start of [initializeAgent]: reading the wallet file and building
    the configuration. *)
Definition walletConfig (env : ProcessEnv) (file : WalletFile)
  : list Output * WalletConfig :=
  let (printed, walletDataStr) :=
    match file with
    | NoFile => ([], None)
    | Content text => ([], Some text)
    | Unreadable error => ([ErrorValue "Error reading wallet data:" error], None)
    end in
  (printed,
   {| apiKeyName := env "CDP_API_KEY_NAME";
      apiKeyPrivateKey := option_map replace_backslash_n (env "CDP_API_KEY_PRIVATE_KEY");
      cdpWalletData := string_or_undefined walletDataStr;
      networkId := string_or (env "NETWORK_ID") "base-sepolia" |}).

(** The end of [initializeAgent]: the exported wallet, serialised, replaces
    the file. *)
Definition saveWallet (serialised : string) (file : WalletFile) : WalletFile :=
  Content serialised.

Inductive Mode : Type := chat | auto.

(** The test on the lower-cased, trimmed answer. *)
Definition modeOfChoice (choice : string) : option Mode :=
  if String.eqb choice "1" || String.eqb choice "chat" then Some chat
  else if String.eqb choice "2" || String.eqb choice "auto" then Some auto
  else None.

Definition menu : list Output :=
  [ Log (LF ++ "Available modes:");
    Log "1. chat    - Interactive chat mode";
    Log "2. auto    - Autonomous action mode";
    Question (LF ++ "Choose a mode (enter number or name): ") ].

(** [chooseMode], on the lines the terminal will answer with; the lines
    not read are handed back. *)
Fixpoint chooseMode (answers : list string)
  : list Output * Ending (Mode * list string) :=
  match answers with
  | [] => (menu, Pending)
  | answer :: rest =>
      let choice := trim (toLowerCase answer) in
      match modeOfChoice choice with
      | Some mode => ((menu ++ [Closed])%list, Finished (mode, rest))
      | None =>
          let (printed, ending) := chooseMode rest in
          ((menu ++ [Log "Invalid choice. Please try again.";
                     Log "Invalid choice. Please try again."] ++ printed)%list,
           ending)
      end
  end.

(** The body of [for await (const chunk of stream)]. *)
Definition printChunk (chunk : Chunk) : list Output :=
  (match agent chunk with
   | Some content => [Log content]
   | None =>
       match tools chunk with
       | Some content => [Log content]
       | None => []
       end
   end ++ [Log "-------------------"])%list.

(** [if (error instanceof Error) console.error("Error:", error.message)]. *)
Definition reportError (error : Thrown) : list Output :=
  match error with
  | AxiosError m _ => [ErrorText "Error:" m]
  | ErrorObject m => [ErrorText "Error:" m]
  | OtherValue _ => []
  end.

Section Conversation.

(** The agent runtime: from its state and a message, the chunks it
    streams, the error that ends the stream if one does, and its next
    state. *)
Variable AgentState : Type.
Variable stream : AgentState -> string -> list Chunk * option Thrown * AgentState.

(** The [while] loop of [runChatMode]. *)
Fixpoint chatLoop (state : AgentState) (inputs : list string)
  : list Output * Ending (list string) :=
  match inputs with
  | [] => ([Question (LF ++ "Prompt: ")], Pending)
  | userInput :: rest =>
      if String.eqb (toLowerCase userInput) "exit"
      then ([Question (LF ++ "Prompt: ")], Finished rest)
      else
        match stream state userInput with
        | (chunks, None, state') =>
            let (printed, ending) := chatLoop state' rest in
            ((Question (LF ++ "Prompt: ") :: Forwarded userInput
              :: flat_map printChunk chunks ++ printed)%list, ending)
        | (chunks, Some error, _) =>
            ((Question (LF ++ "Prompt: ") :: Forwarded userInput
              :: flat_map printChunk chunks)%list, Failed error)
        end
  end.

Definition runChatMode (state : AgentState) (inputs : list string)
  : list Output * Ending (list string) :=
  let (printed, ending) := chatLoop state inputs in
  let printed := Log "Starting chat mode... Type 'exit' to end." :: printed in
  match ending with
  | Finished rest => ((printed ++ [Closed])%list, Finished rest)
  | Failed error => ((printed ++ reportError error)%list, Exited 1)
  | Exited code => (printed, Exited code)
  | Pending => (printed, Pending)
  end.

Definition thought : string :=
  "Be creative and do something interesting on the blockchain. "
  ++ "Choose an action or set of actions and execute it that highlights your abilities.".

(** The first [cycles] turns of the endless loop of [runAutonomousMode]. *)
Fixpoint autonomousLoop (cycles : nat) (state : AgentState) (interval : number)
  : list Output * Ending unit :=
  match cycles with
  | O => ([], Pending)
  | S cycles' =>
      match stream state thought with
      | (chunks, None, state') =>
          let (printed, ending) := autonomousLoop cycles' state' interval in
          ((Forwarded thought :: flat_map printChunk chunks
            ++ Slept (interval * 1000)%float :: printed)%list, ending)
      | (chunks, Some error, _) =>
          ((Forwarded thought :: flat_map printChunk chunks
            ++ reportError error)%list, Exited 1)
      end
  end.

Definition runAutonomousMode (cycles : nat) (state : AgentState)
    (interval : option number) : list Output * Ending unit :=
  let interval := match interval with Some i => i | None => 10%float end in
  let (printed, ending) := autonomousLoop cycles state interval in
  (Log "Starting autonomous mode..." :: printed, ending).

End Conversation.

End Language.

End Chatbot.

(* ===================================================================== *)
(** ** The earlier memecoin chatbot *)
(* ===================================================================== *)

Module Memecoin.

Section Language.
Context {methods : StringMethods}.

Definition getRiskLevel (volume marketCap priceChange24h : number) : string :=
  let liquidityRatio := (volume / marketCap)%float in
  let volatility := Math_abs priceChange24h in
  if (liquidityRatio <? 0.05)%float || (50 <? volatility)%float then "VERY_HIGH"
  else if (liquidityRatio <? 0.1)%float || (30 <? volatility)%float then "HIGH"
  else if (liquidityRatio <? 0.15)%float || (20 <? volatility)%float then "MEDIUM"
  else "LOW".

Definition analyzeCoin (coin : CoinGeckoResponse) : CoinAnalysis :=
  {| a_symbol := toUpperCase (symbol coin);
     a_price := current_price coin;
     a_priceChange24h := price_change_percentage_24h coin;
     a_volume := total_volume coin;
     a_marketCap := market_cap coin;
     a_liquidityScore := (total_volume coin / market_cap coin * 100)%float;
     a_riskLevel := getRiskLevel (total_volume coin) (market_cap coin)
                      (price_change_percentage_24h coin) |}.

Record Report : Type := mkReport {
  data : list CoinAnalysis;
  timestamp : string;
  message : string
}.

Definition memecoinRequest (limit : number) : Request :=
  {| url := "https://api.coingecko.com/api/v3/coins/markets";
     vs_currency := "usd";
     category_param := "meme-token";
     order := "volume_desc";
     per_page := limit;
     sparkline := false;
     accept := "application/json";
     x_cg_demo_api_key := "CG-3DMPfLJag2C5qnfbVMtocbz9" |}.

(** The [catch] clause of [analyze_memecoins]. *)
Definition fetch_failure (error : Thrown) : Eff (Reply Report) :=
  emit (ConsoleError "Failed to fetch memecoin data:" error) ;;;
  if isAxiosError error then
    if status_is (response_status error) 400
    then ret (Text "Error: Invalid request parameters. Please try different search criteria.")
    else if status_is (response_status error) 401
    then ret (Text "Error: Invalid CoinGecko API key. Please check your configuration.")
    else if status_is (response_status error) 429
    then ret (Text "Error: API rate limit exceeded. Please try again later.")
    else ret (Text "Error: Failed to fetch market data. Please try again later.")
  else ret (Text "Error: Failed to fetch market data. Please try again later.").

(** The [invoke] of [memecoinActionProvider] ([analyze_memecoins]). *)
Definition memecoinActionProvider (w : World) : Eff (Reply Report) :=
  let limit := 10%float in
  try_catch
    (if not_string (COINGECKO_API_KEY w)
     then ret (Text "Error: CoinGecko API key not configured. Please contact support.")
     else
       response <- axios_get w (memecoinRequest limit) ;;
       let analysis := map analyzeCoin response in
       ret (Json {| data := analysis;
                    timestamp := now_iso w;
                    message := "Analyzed " ++ length_toString (length analysis)
                               ++ " memecoins based on market data" |}))
    fetch_failure.

Section Investing.
Context {toStr : NumberToString}.

(** The swap placeholder declared inside the [invoke] of
    [invest_in_memecoin]. *)
Definition performSwapTransaction (walletProvider : CdpWalletProvider)
    (tokenAddress : string) (amount slippage : number) : Eff string :=
  emit (SwapCall tokenAddress amount slippage) ;;;
  emit (ConsoleLog ("Swapping " ++ Number_toString amount ++ " ETH for "
                    ++ tokenAddress ++ " with " ++ Number_toString slippage
                    ++ "% slippage tolerance...")) ;;;
  ret "0x1234567890abcdef".

(** The parsed arguments of [invest_in_memecoin]. *)
Record InvestArgs : Type := mkInvestArgs {
  tokenAddress : string;
  amount : number;
  slippage : option number
}.

(** The [invoke] of [investActionProvider] ([invest_in_memecoin]). *)
Definition investActionProvider (walletProvider : CdpWalletProvider)
    (args : InvestArgs) : Eff string :=
  try_catch
    (if (amount args <=? 0)%float
     then ret "Error: Investment amount must be greater than 0"
     else
       txHash <- performSwapTransaction walletProvider (tokenAddress args)
                   (amount args) (number_or (slippage args) 2%float) ;;
       ret ("Successfully invested " ++ Number_toString (amount args)
            ++ " ETH in " ++ tokenAddress args ++ ". TX Hash: " ++ txHash))
    (fun error => ret ("Investment failed: " ++ message_or_unknown error)).

End Investing.

End Language.

End Memecoin.

(* ===================================================================== *)
(** ** The risk classifier as the specification words it *)
(* ===================================================================== *)

Module Spec.

Inductive RiskTier : Type := LOW | MEDIUM | HIGH | VERY_HIGH.

Definition tier_name (t : RiskTier) : string :=
  match t with
  | LOW => "LOW"
  | MEDIUM => "MEDIUM"
  | HIGH => "HIGH"
  | VERY_HIGH => "VERY_HIGH"
  end.

Definition severity (t : RiskTier) : nat :=
  match t with
  | LOW => 0
  | MEDIUM => 1
  | HIGH => 2
  | VERY_HIGH => 3
  end.

Definition tier_of_name (s : string) : option RiskTier :=
  if String.eqb s "VERY_HIGH" then Some VERY_HIGH
  else if String.eqb s "HIGH" then Some HIGH
  else if String.eqb s "MEDIUM" then Some MEDIUM
  else if String.eqb s "LOW" then Some LOW
  else None.

(** Severity of a tier given by name; names outside the enum count 0. *)
Definition severity_of (s : string) : nat :=
  match tier_of_name s with
  | Some t => severity t
  | None => 0
  end.

(** One step of the algorithm: a tier is chosen when the liquidity ratio
    is below [ratio_below] or the volatility is above [volatility_above]. *)
Record Rule : Type := mkRule {
  ratio_below : number;
  volatility_above : number;
  verdict : RiskTier
}.

(** Steps 2 to 4, in order. *)
Definition rules : list Rule :=
  [ mkRule 0.05%float 50%float VERY_HIGH;
    mkRule 0.10%float 30%float HIGH;
    mkRule 0.15%float 20%float MEDIUM ].

Definition fires (liquidityRatio volatility : number) (r : Rule) : bool :=
  (liquidityRatio <? ratio_below r)%float
  || (volatility_above r <? volatility)%float.

(** First match wins; step 5 is the default. *)
Definition classify (volume marketCap priceChange24hPct : number) : RiskTier :=
  let liquidityRatio := (volume / marketCap)%float in
  let volatility := PrimFloat.abs priceChange24hPct in
  match find (fires liquidityRatio volatility) rules with
  | Some r => verdict r
  | None => LOW
  end.

End Spec.

(** The tier picked by the volatility clauses alone. *)
Definition volatility_tier (volatility : number) : string :=
  if (50 <? volatility)%float then "VERY_HIGH"
  else if (30 <? volatility)%float then "HIGH"
  else if (20 <? volatility)%float then "MEDIUM"
  else "LOW".

(** [needle] occurs in [hay]. *)
Definition contains (hay needle : string) : Prop :=
  exists before after, hay = before ++ needle ++ after.

(** [Number::toString] on integers: the decimal digits, with a sign.  This
    is what the language prints for an integer of magnitude below 10^21;
    other finite values are cut to their integer part here, and the
    scenarios below use none. *)
Definition integer_toString (x : number) : string :=
  match Prim2SF x with
  | S754_zero _ => "0"
  | S754_nan => "NaN"
  | S754_infinity false => "Infinity"
  | S754_infinity true => "-Infinity"
  | S754_finite s m e =>
      (if s then "-" else "")
      ++ NilZero.string_of_uint (N.to_uint (Z.to_N (Z.shiftl (Zpos m) e)))
  end.


(* ===================================================================== *)
(** ** Scenarios *)
(* ===================================================================== *)

Definition doge : CoinGeckoResponse :=
  {| symbol := "doge"; current_price := 0.25; price_change_percentage_24h := 4;
     total_volume := 300; market_cap := 1000 |}.

Definition shib : CoinGeckoResponse :=
  {| symbol := "shib"; current_price := 2; price_change_percentage_24h := -35;
     total_volume := 120; market_cap := 1000 |}.

Definition pepe : CoinGeckoResponse :=
  {| symbol := "pepe"; current_price := 1; price_change_percentage_24h := 12;
     total_volume := 20; market_cap := 1000 |}.

(** A world whose provider settles every request the same way. *)
Definition mock_world (response : Outcome (list CoinGeckoResponse)) : World :=
  {| COINGECKO_API_KEY := Some "test-key";
     provider := fun _ => response;
     now_iso := "2025-01-01T00:00:00.000Z" |}.

(** The provider answers with three records whatever page size is asked. *)
Definition three_record_world : World :=
  mock_world (Returned [doge; shib; pepe]).

(** The provider answers HTTP 429. *)
Definition too_many_requests : Thrown :=
  AxiosError "Request failed with status code 429" (Some 429%Z).

Definition rate_limited_world : World :=
  mock_world (Raised too_many_requests).

Definition wallet_with (balance : number) : CdpWalletProvider :=
  {| getBalance := Returned balance |}.

Definition invest_request (amount : number) (slippage : option number)
  : Chatbot.InvestArgs :=
  {| Chatbot.tokenAddress := "0xabc";
     Chatbot.amount := amount;
     Chatbot.slippage := slippage;
     Chatbot.invest_category := Chatbot.MEME |}.

(** The arguments of [invest_in_coin] with the slippage left out. *)
Definition without_slippage (args : Chatbot.InvestArgs) : Chatbot.InvestArgs :=
  {| Chatbot.tokenAddress := Chatbot.tokenAddress args;
     Chatbot.amount := Chatbot.amount args;
     Chatbot.slippage := None;
     Chatbot.invest_category := Chatbot.invest_category args |}.

(** The number of coins an analysis returned, when it returned coins. *)
Definition coin_count (m : Eff Chatbot.Analysis) : option nat :=
  match outcome m with
  | Returned (Chatbot.Coins l) => Some (length l)
  | _ => None
  end.

(* ===================================================================== *)
(** ** Reading traces *)
(* ===================================================================== *)

(** The requests among the events of a trace. *)
Definition http_requests (t : list Event) : list Request :=
  flat_map (fun ev => match ev with HttpGet r => [r] | _ => [] end) t.

(** The messages handed to the agent, in order. *)
Definition forwarded (t : list Output) : list string :=
  flat_map (fun o => match o with Forwarded text => [text] | _ => [] end) t.

(** How many times the readline interface was closed. *)
Definition closings (t : list Output) : nat :=
  length (filter (fun o => match o with Closed => true | _ => false end) t).

(** How many times [line] went to the console log. *)
Definition logged (line : string) (t : list Output) : nat :=
  length (filter (fun o => match o with
                           | Log l => String.eqb l line
                           | _ => false
                           end) t).

(** How many times the program slept. *)
Definition sleeps (t : list Output) : nat :=
  length (filter (fun o => match o with Slept _ => true | _ => false end) t).

(** The conversation an agent has on a list of messages, from a state: the
    turns it completed, each with the chunks it streamed, and the turn on
    which its stream failed, if one did.  Nothing is sent after a failure. *)
Fixpoint transcript {AgentState : Type}
    (stream : AgentState -> string -> list Chunk * option Thrown * AgentState)
    (state : AgentState) (messages : list string)
  : list (string * list Chunk) * option (string * list Chunk * Thrown) :=
  match messages with
  | [] => ([], None)
  | message :: rest =>
      match stream state message with
      | (chunks, None, state') =>
          let (completed, failed) := transcript stream state' rest in
          ((message, chunks) :: completed, failed)
      | (chunks, Some error, _) => ([], Some (message, chunks, error))
      end
  end.

(** A backslash and the letter n, the escaped line break of a key kept in
    an environment file. *)
Definition backslash_n : string := String "\"%char (String "n"%char EmptyString).

(** A backslash followed by [n] occurs in the text. *)
Fixpoint has_backslash_n (s : string) : bool :=
  match s with
  | EmptyString => false
  | String c rest =>
      match rest with
      | String d _ =>
          (Ascii.eqb c "\"%char && Ascii.eqb d "n"%char) || has_backslash_n rest
      | EmptyString => false
      end
  end.

(** An environment given by its bindings. *)
Fixpoint env_of (bindings : list (string * string)) : ProcessEnv :=
  fun name =>
    match bindings with
    | [] => None
    | (key, value) :: rest =>
        if String.eqb name key then Some value else env_of rest name
    end.

(** An agent that answers each message with one [agent] chunk and one
    chunk of another node, counts its turns, and fails on ["boom"]. *)
Definition echo_agent (turns : nat) (text : string)
  : list Chunk * option Thrown * nat :=
  if String.eqb text "boom"
  then ([mkChunk (Some "thinking") None], Some (ErrorObject "agent down"), turns)
  else ([mkChunk (Some ("echo " ++ text)) None; mkChunk None None], None, S turns).

(* ===================================================================== *)
(** ** Order facts of binary64 *)
(* ===================================================================== *)

Ltac order_cases :=
  repeat match goal with
  | |- context [Pos.compare_cont Eq ?a ?b] =>
      change (Pos.compare_cont Eq a b) with (Pos.compare a b)
  | H : context [Pos.compare_cont Eq ?a ?b] |- _ =>
      change (Pos.compare_cont Eq a b) with (Pos.compare a b) in H
  end;
  repeat match goal with
  | H : context [Z.compare ?a ?b] |- _ =>
      destruct (Z.compare_spec a b); simpl in H
  | H : context [Pos.compare ?a ?b] |- _ =>
      destruct (Pos.compare_spec a b); simpl in H
  | |- context [Z.compare ?a ?b] =>
      destruct (Z.compare_spec a b); simpl
  | |- context [Pos.compare ?a ?b] =>
      destruct (Pos.compare_spec a b); simpl
  end;
  try discriminate; try reflexivity; try (exfalso; lia).

Section SpecFloatOrder.

Implicit Types x y z : spec_float.

Lemma SFcompare_flip x y :
  SFcompare y x = option_map CompOpp (SFcompare x y).
Proof.
  destruct x as [sx|sx| |sx mx ex], y as [sy|sy| |sy my ey];
    try destruct sx; try destruct sy; simpl; try reflexivity;
    order_cases.
Qed.

Lemma SFcompare_lt_le_trans x y z :
  SFcompare x y = Some Lt ->
  SFcompare y z = Some Lt \/ SFcompare y z = Some Eq ->
  SFcompare x z = Some Lt.
Proof.
  destruct x as [sx|sx| |sx mx ex], y as [sy|sy| |sy my ey],
           z as [sz|sz| |sz mz ez];
    try destruct sx; try destruct sy; try destruct sz; simpl;
    intros Hxy [Hyz|Hyz]; try discriminate; try reflexivity;
    injection Hxy as Hxy; injection Hyz as Hyz; f_equal; order_cases.
Qed.

Lemma SFcompare_le_lt_trans x y z :
  SFcompare x y = Some Lt \/ SFcompare x y = Some Eq ->
  SFcompare y z = Some Lt ->
  SFcompare x z = Some Lt.
Proof.
  destruct x as [sx|sx| |sx mx ex], y as [sy|sy| |sy my ey],
           z as [sz|sz| |sz mz ez];
    try destruct sx; try destruct sy; try destruct sz; simpl;
    intros [Hxy|Hxy] Hyz; try discriminate; try reflexivity;
    injection Hxy as Hxy; injection Hyz as Hyz; f_equal; order_cases.
Qed.

Lemma SFcompare_eq_l x y z :
  SFcompare x y = Some Eq -> SFcompare x z = SFcompare y z.
Proof.
  destruct x as [sx|sx| |sx mx ex], y as [sy|sy| |sy my ey],
           z as [sz|sz| |sz mz ez];
    try destruct sx; try destruct sy; try destruct sz; simpl;
    intros Hxy; try discriminate; try reflexivity;
    injection Hxy as Hxy; f_equal; order_cases.
Qed.

Lemma SFcompare_irrefl x : SFcompare x x <> Some Lt.
Proof.
  destruct x as [sx|sx| |sx mx ex]; try destruct sx; simpl;
    try discriminate; intros H; injection H as H; order_cases.
Qed.

End SpecFloatOrder.

Section FloatOrder.

Implicit Types a b c : number.
#[local] Open Scope float_scope.

Lemma ltb_compare a b :
  (a <? b) = true <-> SFcompare (Prim2SF a) (Prim2SF b) = Some Lt.
Proof.
  rewrite FloatAxioms.ltb_spec. unfold SFltb.
  destruct (SFcompare _ _) as [[ | | ]|]; split; congruence.
Qed.

Lemma leb_compare a b :
  (a <=? b) = true <->
  SFcompare (Prim2SF a) (Prim2SF b) = Some Lt
  \/ SFcompare (Prim2SF a) (Prim2SF b) = Some Eq.
Proof.
  rewrite FloatAxioms.leb_spec. unfold SFleb.
  destruct (SFcompare _ _) as [[ | | ]|]; split;
    try tauto; try congruence; intros [H|H]; congruence.
Qed.

Lemma eqb_compare a b :
  (a =? b) = true <-> SFcompare (Prim2SF a) (Prim2SF b) = Some Eq.
Proof.
  rewrite FloatAxioms.eqb_spec. unfold SFeqb.
  destruct (SFcompare _ _) as [[ | | ]|]; split; congruence.
Qed.

Lemma ltb_irrefl a : (a <? a) = false.
Proof.
  destruct (a <? a) eqn:H; [|reflexivity].
  apply ltb_compare in H. now apply SFcompare_irrefl in H.
Qed.

Lemma ltb_leb_trans a b c :
  (a <? b) = true -> (b <=? c) = true -> (a <? c) = true.
Proof.
  rewrite !ltb_compare, leb_compare. apply SFcompare_lt_le_trans.
Qed.

Lemma leb_ltb_trans a b c :
  (a <=? b) = true -> (b <? c) = true -> (a <? c) = true.
Proof.
  rewrite !ltb_compare, leb_compare. apply SFcompare_le_lt_trans.
Qed.

Lemma leb_not_ltb a b : (a <=? b) = true -> (b <? a) = false.
Proof.
  intros H. destruct (b <? a) eqn:E; [|reflexivity].
  apply ltb_compare in E. apply leb_compare in H.
  rewrite (SFcompare_flip (Prim2SF b) (Prim2SF a)), E in H.
  simpl in H. destruct H; discriminate.
Qed.

Lemma eqb_ltb_l a b c : (a =? b) = true -> (a <? c) = (b <? c).
Proof.
  intros H. apply eqb_compare in H.
  rewrite !FloatAxioms.ltb_spec. unfold SFltb.
  now rewrite (SFcompare_eq_l _ _ (Prim2SF c) H).
Qed.

Lemma eqb_ltb_r a b c : (a =? b) = true -> (c <? a) = (c <? b).
Proof.
  intros H. apply eqb_compare in H.
  rewrite !FloatAxioms.ltb_spec. unfold SFltb.
  rewrite (SFcompare_flip (Prim2SF a) (Prim2SF c)).
  rewrite (SFcompare_flip (Prim2SF b) (Prim2SF c)).
  now rewrite (SFcompare_eq_l _ _ (Prim2SF c) H).
Qed.

Lemma eqb_not_ltb a b : (a =? b) = true -> (a <? b) = false.
Proof.
  intros H. rewrite (eqb_ltb_l a b b H). apply ltb_irrefl.
Qed.

(** Nothing at most [d] is above a bound [c] that [d] is not above. *)
Lemma not_above c d a :
  (a <=? d) = true -> (c <? d) = false -> (c <? a) = false.
Proof.
  intros Ha Hc. destruct (c <? a) eqn:E; [|reflexivity].
  now rewrite (ltb_leb_trans c a d E Ha) in Hc.
Qed.

(** Nothing that is not below [d] is below a bound [c <= d]. *)
Lemma not_below c d a :
  (a <? d) = false -> (c <=? d) = true -> (a <? c) = false.
Proof.
  intros Ha Hc. destruct (a <? c) eqn:E; [|reflexivity].
  now rewrite (ltb_leb_trans a c d E Hc) in Ha.
Qed.

(** A quotient by zero is NaN or an infinity. *)
Lemma div_zero_shape a b :
  (b =? 0) = true ->
  a / b = nan \/ a / b = infinity \/ a / b = neg_infinity.
Proof.
  intros H. apply eqb_compare in H.
  assert (Hb : exists s, Prim2SF b = S754_zero s).
  { change (Prim2SF 0) with (S754_zero false) in H.
    destruct (Prim2SF b) as [s|s| |s m e]; try destruct s;
      simpl in H; try discriminate; eauto. }
  destruct Hb as [s Hb].
  pose proof (FloatAxioms.div_spec a b) as D. rewrite Hb in D.
  rewrite <- (SF2Prim_Prim2SF (a / b)), D.
  destruct (Prim2SF a) as [sa|sa| |sa ma ea]; try destruct sa;
    destruct s; simpl; auto.
Qed.

End FloatOrder.

(* ===================================================================== *)
(** ** The risk classifier *)
(* ===================================================================== *)

Example getRiskLevel_sample :
  (Chatbot.getRiskLevel 20 100 5 = "LOW"
   /\ Chatbot.getRiskLevel 1 100 5 = "VERY_HIGH"
   /\ Chatbot.getRiskLevel 7 100 5 = "HIGH"
   /\ Chatbot.getRiskLevel 20 100 (-25) = "MEDIUM")%float.
Proof. repeat split; reflexivity. Qed.

Lemma Memecoin_getRiskLevel_same :
  Memecoin.getRiskLevel = Chatbot.getRiskLevel.
Proof. reflexivity. Qed.

(** The classifier in terms of its two derived quantities. *)
Lemma getRiskLevel_unfold volume marketCap priceChange24h :
  Chatbot.getRiskLevel volume marketCap priceChange24h =
  (if (volume / marketCap <? 0.05)%float
      || (50 <? Math_abs priceChange24h)%float then "VERY_HIGH"
   else if (volume / marketCap <? 0.1)%float
      || (30 <? Math_abs priceChange24h)%float then "HIGH"
   else if (volume / marketCap <? 0.15)%float
      || (20 <? Math_abs priceChange24h)%float then "MEDIUM"
   else "LOW").
Proof. reflexivity. Qed.

Lemma tier_name_inj t u : Spec.tier_name t = Spec.tier_name u -> t = u.
Proof. destruct t, u; simpl; intros H; try reflexivity; discriminate. Qed.

Lemma getRiskLevel_is_tier volume marketCap priceChange24h :
  exists t, Chatbot.getRiskLevel volume marketCap priceChange24h
            = Spec.tier_name t.
Proof.
  rewrite getRiskLevel_unfold.
  destruct (_ || _); [now exists Spec.VERY_HIGH|].
  destruct (_ || _); [now exists Spec.HIGH|].
  destruct (_ || _); [now exists Spec.MEDIUM|now exists Spec.LOW].
Qed.

(** Splits on the six comparisons of the classifier, keeping their values. *)
Ltac risk_cases :=
  repeat match goal with
  | |- context [PrimFloat.ltb ?a ?b] =>
      let E := fresh "E" in destruct (PrimFloat.ltb a b) eqn:E
  end; simpl.

(** From a comparison that holds and a bound, the comparison further on. *)
Ltac push_bound Hle :=
  repeat match goal with
  | H1 : PrimFloat.ltb ?c ?v = true, H2 : PrimFloat.ltb ?c ?w = false |- _ =>
      rewrite (ltb_leb_trans c v w H1 Hle) in H2; discriminate H2
  | H1 : PrimFloat.ltb ?v ?c = true, H2 : PrimFloat.ltb ?w ?c = false |- _ =>
      rewrite (leb_ltb_trans w v c Hle H1) in H2; discriminate H2
  end.

(** C1: for every volume, priceChange24hPct and marketCap > 0, the
    classifier of the code (in both chatbots) returns the tier the ordered
    first-match algorithm of the specification selects: VERY_HIGH if
    liquidityRatio < 0.05 or volatility > 50, else HIGH if < 0.10 or > 30,
    else MEDIUM if < 0.15 or > 20, else LOW. *)
Theorem getRiskLevel_first_match volume marketCap priceChange24hPct :
  (0 <? marketCap)%float = true ->
  Chatbot.getRiskLevel volume marketCap priceChange24hPct
    = Spec.tier_name (Spec.classify volume marketCap priceChange24hPct)
  /\ Memecoin.getRiskLevel volume marketCap priceChange24hPct
    = Spec.tier_name (Spec.classify volume marketCap priceChange24hPct).
Proof.
  intros _. rewrite Memecoin_getRiskLevel_same, getRiskLevel_unfold.
  unfold Spec.classify, Spec.rules, Spec.fires, Math_abs. simpl.
  risk_cases; split; reflexivity.
Qed.

Lemma getRiskLevel_first_match_witness :
  (0 <? 100)%float = true
  /\ Chatbot.getRiskLevel 7 100 (-25) = "HIGH"
  /\ Spec.classify 7 100 (-25) = Spec.HIGH.
Proof.
  split; [reflexivity|].
  split; [|reflexivity].
  rewrite (proj1 (getRiskLevel_first_match 7 100 (-25) eq_refl)).
  reflexivity.
Defined.

(** C5: a value exactly on a threshold belongs to the lower tier.  With the
    ratio exactly 0.05 (0.10, 0.15) and the volatility at most 50 (30, 20)
    the result is HIGH (MEDIUM, LOW); with the volatility exactly 50 (30,
    20) and the ratio not below 0.05 (0.10, 0.15) the result is HIGH
    (MEDIUM, LOW).  In particular neither 0.05 nor 50 yields VERY_HIGH. *)
Theorem getRiskLevel_boundaries volume marketCap priceChange24h :
  let liquidityRatio := (volume / marketCap)%float in
  let volatility := Math_abs priceChange24h in
  let tier := Chatbot.getRiskLevel volume marketCap priceChange24h in
  ((liquidityRatio =? 0.05)%float = true ->
   (volatility <=? 50)%float = true -> tier = "HIGH")
  /\ ((liquidityRatio =? 0.1)%float = true ->
      (volatility <=? 30)%float = true -> tier = "MEDIUM")
  /\ ((liquidityRatio =? 0.15)%float = true ->
      (volatility <=? 20)%float = true -> tier = "LOW")
  /\ ((volatility =? 50)%float = true ->
      (liquidityRatio <? 0.05)%float = false -> tier = "HIGH")
  /\ ((volatility =? 30)%float = true ->
      (liquidityRatio <? 0.1)%float = false -> tier = "MEDIUM")
  /\ ((volatility =? 20)%float = true ->
      (liquidityRatio <? 0.15)%float = false -> tier = "LOW").
Proof.
  intros r v tier. subst tier. rewrite getRiskLevel_unfold. fold r v.
  repeat split.
  - intros Hr Hv. rewrite !(eqb_ltb_l r _ _ Hr).
    now rewrite (not_above 50 50 v Hv eq_refl).
  - intros Hr Hv. rewrite !(eqb_ltb_l r _ _ Hr).
    now rewrite (not_above 50 30 v Hv eq_refl), (not_above 30 30 v Hv eq_refl).
  - intros Hr Hv. rewrite !(eqb_ltb_l r _ _ Hr).
    now rewrite (not_above 50 20 v Hv eq_refl), (not_above 30 20 v Hv eq_refl),
                (not_above 20 20 v Hv eq_refl).
  - intros Hv Hr. rewrite !(eqb_ltb_r v _ _ Hv), Hr.
    destruct (r <? 0.1)%float; reflexivity.
  - intros Hv Hr. rewrite !(eqb_ltb_r v _ _ Hv), Hr.
    rewrite (not_below 0.05 0.1 r Hr eq_refl).
    destruct (r <? 0.15)%float; reflexivity.
  - intros Hv Hr. rewrite !(eqb_ltb_r v _ _ Hv), Hr.
    now rewrite (not_below 0.05 0.15 r Hr eq_refl),
                (not_below 0.1 0.15 r Hr eq_refl).
Qed.

Lemma getRiskLevel_boundaries_witness :
  ((5 / 100 =? 0.05)%float = true
   /\ Chatbot.getRiskLevel 5 100 50 = "HIGH")
  /\ ((10 / 100 =? 0.1)%float = true
      /\ Chatbot.getRiskLevel 10 100 30 = "MEDIUM")
  /\ ((15 / 100 =? 0.15)%float = true
      /\ Chatbot.getRiskLevel 15 100 20 = "LOW")
  /\ ((Math_abs (-50) =? 50)%float = true
      /\ Chatbot.getRiskLevel 20 100 (-50) = "HIGH")
  /\ ((Math_abs (-30) =? 30)%float = true
      /\ Chatbot.getRiskLevel 20 100 (-30) = "MEDIUM")
  /\ ((Math_abs 20 =? 20)%float = true
      /\ Chatbot.getRiskLevel 20 100 20 = "LOW").
Proof.
  split; [split; [reflexivity|]|split; [split; [reflexivity|]|
  split; [split; [reflexivity|]|split; [split; [reflexivity|]|
  split; [split; [reflexivity|]|split; [reflexivity|]]]]]].
  - destruct (getRiskLevel_boundaries 5 100 50) as [H _].
    apply H; reflexivity.
  - destruct (getRiskLevel_boundaries 10 100 30) as [_ [H _]].
    apply H; reflexivity.
  - destruct (getRiskLevel_boundaries 15 100 20) as [_ [_ [H _]]].
    apply H; reflexivity.
  - destruct (getRiskLevel_boundaries 20 100 (-50)) as [_ [_ [_ [H _]]]].
    apply H; reflexivity.
  - destruct (getRiskLevel_boundaries 20 100 (-30)) as [_ [_ [_ [_ [H _]]]]].
    apply H; reflexivity.
  - destruct (getRiskLevel_boundaries 20 100 20) as [_ [_ [_ [_ [_ H]]]]].
    apply H; reflexivity.
Defined.

(** C6: for marketCap > 0 the classifier returns exactly one of the four
    tiers, and the severity of the returned tier does not decrease when the
    volatility grows (same volume and market cap) nor when the liquidity
    ratio shrinks (same price change). *)
Theorem getRiskLevel_monotone volume marketCap priceChange :
  (0 <? marketCap)%float = true ->
  (exists! t, Chatbot.getRiskLevel volume marketCap priceChange
              = Spec.tier_name t)
  /\ (forall priceChange',
        (Math_abs priceChange <=? Math_abs priceChange')%float = true ->
        Spec.severity_of (Chatbot.getRiskLevel volume marketCap priceChange)
        <= Spec.severity_of (Chatbot.getRiskLevel volume marketCap priceChange'))
  /\ (forall volume' marketCap',
        (0 <? marketCap')%float = true ->
        (volume' / marketCap' <=? volume / marketCap)%float = true ->
        Spec.severity_of (Chatbot.getRiskLevel volume marketCap priceChange)
        <= Spec.severity_of (Chatbot.getRiskLevel volume' marketCap' priceChange)).
Proof.
  intros _. split; [|split].
  - destruct (getRiskLevel_is_tier volume marketCap priceChange) as [t Ht].
    exists t. split; [exact Ht|].
    intros u Hu. apply tier_name_inj. congruence.
  - intros priceChange' Hle. rewrite !getRiskLevel_unfold.
    set (v := Math_abs priceChange) in *.
    set (v' := Math_abs priceChange') in *.
    set (r := (volume / marketCap)%float).
    risk_cases; try push_bound Hle; vm_compute; lia.
  - intros volume' marketCap' _ Hle. rewrite !getRiskLevel_unfold.
    set (v := Math_abs priceChange).
    set (r := (volume / marketCap)%float) in *.
    set (r' := (volume' / marketCap')%float) in *.
    risk_cases; try push_bound Hle; vm_compute; lia.
Qed.

Lemma getRiskLevel_monotone_witness :
  (0 <? 100)%float = true
  /\ Spec.severity_of (Chatbot.getRiskLevel 20 100 10)
     <= Spec.severity_of (Chatbot.getRiskLevel 20 100 (-40))
  /\ Spec.severity_of (Chatbot.getRiskLevel 20 100 10)
     <= Spec.severity_of (Chatbot.getRiskLevel 7 100 10).
Proof.
  split; [reflexivity|].
  destruct (getRiskLevel_monotone 20 100 10 eq_refl) as [_ [Hv Hr]].
  split.
  - apply (Hv (-40)%float). reflexivity.
  - apply (Hr 7%float 100%float); reflexivity.
Defined.

(** With a market cap of zero and a positive volume the ratio is +Infinity,
    no ratio clause fires, and a calm price gives the lowest tier. *)
Lemma zero_marketCap_gives_LOW :
  Chatbot.getRiskLevel 1 0 0 = "LOW"
  /\ Chatbot.getRiskLevel 1 0 0 <> "VERY_HIGH"
  /\ Memecoin.getRiskLevel 1 0 0 = "LOW".
Proof.
  split; [reflexivity|]. split; [|reflexivity].
  vm_compute. discriminate.
Qed.

(** C3, as the code has it: for marketCap = 0 (either zero) the classifier
    raises nothing and returns a tier fixed by its arguments.  The quotient
    volume / marketCap is NaN, +Infinity or -Infinity; the result is
    VERY_HIGH when the quotient is -Infinity, and otherwise the tier the
    volatility clauses alone give (VERY_HIGH above 50, HIGH above 30,
    MEDIUM above 20, else LOW). *)
Theorem getRiskLevel_zero_marketCap volume marketCap priceChange24h :
  (marketCap =? 0)%float = true ->
  let liquidityRatio := (volume / marketCap)%float in
  let tier := Chatbot.getRiskLevel volume marketCap priceChange24h in
  Memecoin.getRiskLevel volume marketCap priceChange24h = tier
  /\ ((liquidityRatio = neg_infinity /\ tier = "VERY_HIGH")
      \/ ((liquidityRatio = nan \/ liquidityRatio = infinity)
          /\ tier = volatility_tier (Math_abs priceChange24h))).
Proof.
  intros Hz r tier. split; [reflexivity|].
  subst tier. rewrite getRiskLevel_unfold. fold r.
  destruct (div_zero_shape volume marketCap Hz) as [E|[E|E]];
    fold r in E; rewrite E.
  - right. split; [now left|]. reflexivity.
  - right. split; [now right|]. reflexivity.
  - left. split; reflexivity.
Qed.

Lemma getRiskLevel_zero_marketCap_witness :
  (0 =? 0)%float = true
  /\ Chatbot.getRiskLevel (-1) 0 0 = "VERY_HIGH"
  /\ Chatbot.getRiskLevel 1 0 25 = "MEDIUM".
Proof.
  split; [reflexivity|]. split.
  - destruct (getRiskLevel_zero_marketCap (-1) 0 0 eq_refl)
      as [_ [[_ H]|[[E|E] _]]]; [exact H|discriminate E|discriminate E].
  - destruct (getRiskLevel_zero_marketCap 1 0 25 eq_refl)
      as [_ [[E _]|[_ H]]]; [discriminate E|exact H].
Defined.

(* ===================================================================== *)
(** ** Text *)
(* ===================================================================== *)

Lemma string_app_assoc (a b c : string) : (a ++ b) ++ c = a ++ (b ++ c).
Proof. induction a as [|ch a IH]; simpl; [reflexivity|now rewrite IH]. Qed.

Lemma string_app_nil_r (a : string) : a ++ "" = a.
Proof. induction a as [|ch a IH]; simpl; [reflexivity|now rewrite IH]. Qed.

Lemma contains_here (before needle after : string) :
  contains (before ++ needle ++ after) needle.
Proof. now exists before, after. Qed.

Lemma contains_app_r (prefix hay needle : string) :
  contains hay needle -> contains (prefix ++ hay) needle.
Proof.
  intros (b & a & ->). exists (prefix ++ b), a.
  now rewrite string_app_assoc.
Qed.

Lemma contains_start (needle after : string) :
  contains (needle ++ after) needle.
Proof. now exists "", after. Qed.

Lemma contains_end (before needle : string) :
  contains (before ++ needle) needle.
Proof. exists before, "". now rewrite string_app_nil_r. Qed.

Example integer_toString_3 : integer_toString 3 = "3".
Proof. reflexivity. Qed.

(* ===================================================================== *)
(** ** Market analysis *)
(* ===================================================================== *)

(** C2: the claim says that fetch returns at most limit records, and
    exactly 2 when the provider responds with 3 records to limit = 2.  On
    that input the code returns 3: it hands the limit to the provider as
    the page size and keeps every record of the response. *)
Theorem three_records_for_limit_two {methods : StringMethods} :
  coin_count (Chatbot.analyzeCoins three_record_world "meme-token" 2) = Some 3
  /\ coin_count (Chatbot.analyzeCoins three_record_world "meme-token" 2)
     <> Some 2
  /\ http_requests (trace (Chatbot.analyzeCoins three_record_world "meme-token" 2))
     = [Chatbot.coinsRequest "test-key" "meme-token" 2].
Proof. split; [reflexivity|]. split; [discriminate|reflexivity]. Qed.

(** With a key configured and a response from the provider, the analysis
    asks for a page of size limit and returns one entry per record of the
    response, in the provider's order, each with liquidityScore =
    (volume / marketCap) * 100 and the risk level of that record.  Its
    length is the number of records the provider sent. *)
Lemma analyzeCoins_maps_response {methods : StringMethods}
    w category limit records :
  let request :=
    Chatbot.coinsRequest (string_value (COINGECKO_API_KEY w)) category limit in
  not_string (COINGECKO_API_KEY w) = false ->
  provider w request = Returned records ->
  let result := map Chatbot.analyzeCoin records in
  Chatbot.analyzeCoins w category limit
    = ([HttpGet request], Returned (Chatbot.Coins result))
  /\ per_page request = limit
  /\ category_param request = category
  /\ length result = length records
  /\ (forall n, length records <= n -> length result <= n)
  /\ (forall i coin, nth_error records i = Some coin ->
        exists a, nth_error result i = Some a
                  /\ a_volume a = total_volume coin
                  /\ a_marketCap a = market_cap coin
                  /\ a_liquidityScore a
                     = (total_volume coin / market_cap coin * 100)%float
                  /\ a_riskLevel a
                     = Chatbot.getRiskLevel (total_volume coin) (market_cap coin)
                         (price_change_percentage_24h coin)).
Proof.
  intros request Hkey Hresp result.
  split; [|split; [reflexivity|split; [reflexivity|]]].
  - unfold Chatbot.analyzeCoins. rewrite Hkey. fold request.
    unfold axios_get. rewrite Hresp. reflexivity.
  - subst result. rewrite length_map.
    split; [reflexivity|split; [tauto|]].
    intros i coin Hi. exists (Chatbot.analyzeCoin coin).
    rewrite nth_error_map, Hi. simpl. repeat split.
Qed.

Lemma analyzeCoins_maps_response_witness :
  Chatbot.analyzeCoins (methods := ascii_methods) three_record_world "meme-token" 2
  = ([HttpGet (Chatbot.coinsRequest "test-key" "meme-token" 2)],
     Returned (Chatbot.Coins
                 (map (Chatbot.analyzeCoin (methods := ascii_methods))
                    [doge; shib; pepe]))).
Proof.
  apply (analyzeCoins_maps_response (methods := ascii_methods)
           three_record_world "meme-token" 2 [doge; shib; pepe]); reflexivity.
Defined.

Lemma analyzeCoins_returns {methods : StringMethods} w category limit :
  exists a, outcome (Chatbot.analyzeCoins w category limit) = Returned a.
Proof.
  unfold Chatbot.analyzeCoins.
  destruct (not_string (COINGECKO_API_KEY w)); [simpl; eauto|].
  unfold axios_get.
  destruct (provider w _) as [records|error]; simpl; eauto.
Qed.

Lemma fetch_failure_text error :
  exists t s, Memecoin.fetch_failure error = (t, Returned (Text s))
              /\ String.prefix "Error: " s = true.
Proof.
  unfold Memecoin.fetch_failure.
  destruct (isAxiosError error); [|simpl; eauto].
  repeat (destruct (status_is _ _); [simpl; eauto|]). simpl; eauto.
Qed.

Lemma memecoinActionProvider_on_failure {methods : StringMethods} w error :
  not_string (COINGECKO_API_KEY w) = false ->
  provider w (Memecoin.memecoinRequest 10) = Raised error ->
  Memecoin.memecoinActionProvider w
  = (HttpGet (Memecoin.memecoinRequest 10) :: trace (Memecoin.fetch_failure error),
     outcome (Memecoin.fetch_failure error)).
Proof.
  intros Hkey Hfail. unfold Memecoin.memecoinActionProvider.
  rewrite Hkey. unfold axios_get. rewrite Hfail. simpl.
  destruct (Memecoin.fetch_failure error). reflexivity.
Qed.

Lemma memecoinActionProvider_returns {methods : StringMethods} w :
  exists r, outcome (Memecoin.memecoinActionProvider w) = Returned r.
Proof.
  destruct (not_string (COINGECKO_API_KEY w)) eqn:Hkey.
  { unfold Memecoin.memecoinActionProvider. rewrite Hkey. simpl. eauto. }
  destruct (provider w (Memecoin.memecoinRequest 10)) as [records|error] eqn:Hp.
  - unfold Memecoin.memecoinActionProvider. rewrite Hkey.
    unfold axios_get. rewrite Hp. simpl. eauto.
  - rewrite (memecoinActionProvider_on_failure w error Hkey Hp).
    destruct (fetch_failure_text error) as (t & s & -> & _). simpl. eauto.
Qed.

(** An upstream failure never leaves the analysis.  In chatbot.ts
    [analyzeCoins] always returns, and returns the empty sequence when the
    request fails, and the action around it always returns its report; in
    the memecoin chatbot [analyze_memecoins] always returns, returns an
    error string when the request fails, and for an HTTP 429 that string
    is the rate-limit message. *)
Lemma upstream_failure_contained {methods : StringMethods} w error :
  (forall category limit,
     (exists a, outcome (Chatbot.analyzeCoins w category limit) = Returned a)
     /\ (not_string (COINGECKO_API_KEY w) = false ->
         provider w (Chatbot.coinsRequest (string_value (COINGECKO_API_KEY w))
                       category limit) = Raised error ->
         outcome (Chatbot.analyzeCoins w category limit)
         = Returned (Chatbot.Coins [])))
  /\ (forall (toStr : NumberToString) key limit,
        exists r, outcome (Chatbot.createCoinAnalysisAction w key limit)
                  = Returned (Json r))
  /\ (exists r, outcome (Memecoin.memecoinActionProvider w) = Returned r)
  /\ (not_string (COINGECKO_API_KEY w) = false ->
      provider w (Memecoin.memecoinRequest 10) = Raised error ->
      (exists s, outcome (Memecoin.memecoinActionProvider w) = Returned (Text s)
                 /\ String.prefix "Error: " s = true)
      /\ (isAxiosError error = true ->
          response_status error = Some 429%Z ->
          outcome (Memecoin.memecoinActionProvider w)
          = Returned (Text "Error: API rate limit exceeded. Please try again later.")
          /\ contains "Error: API rate limit exceeded. Please try again later."
                      "rate limit")).
Proof.
  split; [|split; [|split]].
  - intros category limit. split; [apply analyzeCoins_returns|].
    intros Hkey Hfail. unfold Chatbot.analyzeCoins.
    rewrite Hkey. unfold axios_get. rewrite Hfail. reflexivity.
  - intros toStr key limit. unfold Chatbot.createCoinAnalysisAction.
    destruct (analyzeCoins_returns w (Chatbot.COIN_CATEGORIES key)
                (Chatbot.parse_limit limit)) as [a Ha].
    destruct (Chatbot.analyzeCoins w _ _) as [t o]. simpl in Ha. subst o.
    simpl. eauto.
  - apply memecoinActionProvider_returns.
  - intros Hkey Hfail.
    rewrite (memecoinActionProvider_on_failure w error Hkey Hfail). split.
    + destruct (fetch_failure_text error) as (t & s & -> & Hs). simpl. eauto.
    + intros Hax Hst. unfold Memecoin.fetch_failure. rewrite Hax, Hst. simpl.
      split; [reflexivity|].
      apply (contains_here "Error: API " "rate limit").
Qed.

Lemma upstream_failure_contained_witness :
  outcome (Chatbot.analyzeCoins (methods := ascii_methods)
             rate_limited_world "meme-token" 10)
  = Returned (Chatbot.Coins [])
  /\ outcome (Memecoin.memecoinActionProvider (methods := ascii_methods)
                rate_limited_world)
     = Returned (Text "Error: API rate limit exceeded. Please try again later.").
Proof.
  destruct (upstream_failure_contained (methods := ascii_methods)
              rate_limited_world too_many_requests)
    as [Hc [_ [_ Hm]]].
  split.
  - apply (Hc "meme-token" 10%float); reflexivity.
  - apply Hm; reflexivity.
Defined.

(** C4: the claim says that an upstream HTTP 429 yields an error string
    with a rate-limit indicator.  In chatbot.ts the analyze_meme action
    answers a 429 with its ordinary report, the data an empty list: the
    same reply as for a response without records, and no error string.
    The analyze_memecoins action of the earlier chatbot answers the same
    failure with the rate-limit message. *)
Theorem analyze_meme_rate_limited
    {methods : StringMethods} {toStr : NumberToString} :
  let run := Chatbot.createCoinAnalysisAction rate_limited_world Chatbot.MEME None in
  run = ([HttpGet (Chatbot.coinsRequest "test-key" "meme-token" 10);
          ConsoleError "Failed to fetch meme-token data:" too_many_requests],
         Returned (Json (Chatbot.mkReport (Chatbot.Coins [])
                           ("Top " ++ Number_toString 10%float ++ " MEME coins analyzed")
                           Chatbot.MEME "2025-01-01T00:00:00.000Z")))
  /\ outcome run
     = outcome (Chatbot.createCoinAnalysisAction (mock_world (Returned []))
                  Chatbot.MEME None)
  /\ (forall text, outcome run <> Returned (Text text))
  /\ outcome (Memecoin.memecoinActionProvider rate_limited_world)
     = Returned (Text "Error: API rate limit exceeded. Please try again later.").
Proof.
  cbv zeta. split; [reflexivity|]. split; [reflexivity|].
  split; [|reflexivity]. intros text. cbn. discriminate.
Qed.

(* ===================================================================== *)
(** ** Investment *)
(* ===================================================================== *)

Section Investment.

Context {toStr : NumberToString}.
Variable walletProvider : CdpWalletProvider.
Variable args : Chatbot.InvestArgs.
Variable balance : number.
Hypothesis queried : getBalance walletProvider = Returned balance.

Lemma investActionProvider_short :
  (balance <? Chatbot.amount args)%float = true ->
  Chatbot.investActionProvider walletProvider args
  = ([], Returned (Chatbot.shortfall_message balance args)).
Proof.
  intros Hlt. unfold Chatbot.investActionProvider. rewrite queried. simpl.
  rewrite Hlt. reflexivity.
Qed.

Lemma investActionProvider_swap :
  (balance <? Chatbot.amount args)%float = false ->
  Chatbot.investActionProvider walletProvider args
  = (trace (Chatbot.performSwapTransaction walletProvider
              (Chatbot.tokenAddress args) (Chatbot.amount args)
              (number_or (Chatbot.slippage args) 2)),
     Returned (Chatbot.invested_message args "0x1234567890abcdef")).
Proof.
  intros Hlt. unfold Chatbot.investActionProvider. rewrite queried. simpl.
  rewrite Hlt. reflexivity.
Qed.

Lemma performSwapTransaction_calls tokenAddress amount slippage :
  swap_calls (trace (Chatbot.performSwapTransaction walletProvider
                       tokenAddress amount slippage))
  = [SwapCall tokenAddress amount slippage].
Proof. reflexivity. Qed.

(** C7: when the queried balance is strictly less than the requested
    amount, invest_in_coin returns the shortfall message, which contains
    the text of the balance and of the amount; no swap is called and
    nothing else is emitted. *)
Theorem invest_insufficient_balance :
  (balance <? Chatbot.amount args)%float = true ->
  let run := Chatbot.investActionProvider walletProvider args in
  let reply := Chatbot.shortfall_message balance args in
  outcome run = Returned reply
  /\ contains reply (Number_toString balance)
  /\ contains reply (Number_toString (Chatbot.amount args))
  /\ swap_calls (trace run) = []
  /\ trace run = [].
Proof.
  intros Hlt run reply. subst run. rewrite (investActionProvider_short Hlt).
  split; [reflexivity|]. split; [|split; [|split; reflexivity]].
  - apply contains_here.
  - unfold reply, Chatbot.shortfall_message.
    do 3 apply contains_app_r. apply contains_start.
Qed.

(** C8: when the queried balance is at least the requested amount,
    invest_in_coin calls the swap exactly once, with the given token
    address and amount and with slippage 2 when the slippage is omitted,
    and returns the confirmation string, which embeds the transaction
    identifier. *)
Theorem invest_sufficient_balance :
  (Chatbot.amount args <=? balance)%float = true ->
  let run := Chatbot.investActionProvider walletProvider args in
  let reply := Chatbot.invested_message args "0x1234567890abcdef" in
  swap_calls (trace run)
  = [SwapCall (Chatbot.tokenAddress args) (Chatbot.amount args)
       (number_or (Chatbot.slippage args) 2)]
  /\ (Chatbot.slippage args = None ->
      swap_calls (trace run)
      = [SwapCall (Chatbot.tokenAddress args) (Chatbot.amount args) 2])
  /\ outcome run = Returned reply
  /\ contains reply "0x1234567890abcdef".
Proof.
  intros Hle run reply. subst run.
  rewrite (investActionProvider_swap (leb_not_ltb _ _ Hle)).
  split; [reflexivity|]. split; [|split; [reflexivity|]].
  - intros ->. reflexivity.
  - unfold reply, Chatbot.invested_message.
    do 6 apply contains_app_r. apply contains_end.
Qed.

(** C9: a slippage given as 0 is replaced by the default: the swap is
    called with slippage 2, and the whole call behaves as if the slippage
    had been omitted. *)
Theorem invest_zero_slippage s :
  (balance <? Chatbot.amount args)%float = false ->
  Chatbot.slippage args = Some s ->
  (s =? 0)%float = true ->
  number_or (Chatbot.slippage args) 2 = 2%float
  /\ swap_calls (trace (Chatbot.investActionProvider walletProvider args))
     = [SwapCall (Chatbot.tokenAddress args) (Chatbot.amount args) 2]
  /\ Chatbot.investActionProvider walletProvider args
     = Chatbot.investActionProvider walletProvider (without_slippage args).
Proof.
  intros Hok Hs Hz.
  assert (Hd : number_or (Chatbot.slippage args) 2 = 2%float).
  { rewrite Hs. unfold number_or, truthy_number. now rewrite Hz. }
  split; [exact Hd|]. rewrite (investActionProvider_swap Hok), Hd.
  split; [reflexivity|].
  unfold Chatbot.investActionProvider. rewrite queried. simpl. rewrite Hok.
  reflexivity.
Qed.

(** C10: a balance equal to the requested amount is sufficient: the
    comparison balance < amount is false, the shortfall branch is not
    taken and the swap is called. *)
Theorem invest_exact_balance :
  balance = Chatbot.amount args
  \/ (balance =? Chatbot.amount args)%float = true ->
  let run := Chatbot.investActionProvider walletProvider args in
  (balance <? Chatbot.amount args)%float = false
  /\ swap_calls (trace run)
     = [SwapCall (Chatbot.tokenAddress args) (Chatbot.amount args)
          (number_or (Chatbot.slippage args) 2)]
  /\ outcome run = Returned (Chatbot.invested_message args "0x1234567890abcdef")
  /\ outcome run <> Returned (Chatbot.shortfall_message balance args).
Proof.
  intros Heq run.
  assert (Hlt : (balance <? Chatbot.amount args)%float = false).
  { destruct Heq as [<-|Heq]; [apply ltb_irrefl|now apply eqb_not_ltb]. }
  subst run. rewrite (investActionProvider_swap Hlt).
  split; [exact Hlt|]. split; [reflexivity|]. split; [reflexivity|].
  simpl. unfold Chatbot.invested_message, Chatbot.shortfall_message.
  intros H. injection H as H. discriminate H.
Qed.

End Investment.

(** The scenarios of the specification, with integers printed in decimal. *)

Lemma invest_insufficient_balance_witness :
  let reply := "Insufficient mainnet balance (3 ETH). Please top up your wallet to invest 5 ETH in MEME token." in
  let run := Chatbot.investActionProvider (toStr := integer_toString)
               (wallet_with 3) (invest_request 5 None) in
  (3 <? 5)%float = true
  /\ outcome run = Returned reply
  /\ contains reply "3"
  /\ contains reply "5"
  /\ swap_calls (trace run) = []
  /\ trace run = [].
Proof.
  split; [reflexivity|].
  exact (invest_insufficient_balance (toStr := integer_toString)
           (wallet_with 3) (invest_request 5 None) 3 eq_refl eq_refl).
Defined.

Lemma invest_sufficient_balance_witness :
  let reply := "Invested 1 ETH in MEME token (0xabc). TX Hash: 0x1234567890abcdef" in
  let run := Chatbot.investActionProvider (toStr := integer_toString)
               (wallet_with 10) (invest_request 1 None) in
  (1 <=? 10)%float = true
  /\ swap_calls (trace run) = [SwapCall "0xabc" 1 2]
  /\ outcome run = Returned reply
  /\ contains reply "0x1234567890abcdef".
Proof.
  split; [reflexivity|].
  destruct (invest_sufficient_balance (toStr := integer_toString)
              (wallet_with 10) (invest_request 1 None) 10 eq_refl eq_refl)
    as [_ [Hdefault Hrest]].
  split; [exact (Hdefault eq_refl)|exact Hrest].
Defined.

Lemma invest_zero_slippage_witness :
  let run := Chatbot.investActionProvider (toStr := integer_toString)
               (wallet_with 10) (invest_request 1 (Some 0%float)) in
  (10 <? 1)%float = false
  /\ swap_calls (trace run) = [SwapCall "0xabc" 1 2]
  /\ run = Chatbot.investActionProvider (toStr := integer_toString)
             (wallet_with 10) (invest_request 1 None).
Proof.
  split; [reflexivity|].
  exact (proj2 (invest_zero_slippage (toStr := integer_toString)
                  (wallet_with 10) (invest_request 1 (Some 0%float)) 10
                  eq_refl 0 eq_refl eq_refl eq_refl)).
Defined.

Lemma invest_exact_balance_witness :
  let run := Chatbot.investActionProvider (toStr := integer_toString)
               (wallet_with 5) (invest_request 5 None) in
  (5 =? 5)%float = true
  /\ swap_calls (trace run) = [SwapCall "0xabc" 5 2]
  /\ outcome run
     = Returned "Invested 5 ETH in MEME token (0xabc). TX Hash: 0x1234567890abcdef".
Proof.
  split; [reflexivity|].
  destruct (invest_exact_balance (toStr := integer_toString)
              (wallet_with 5) (invest_request 5 None) 5 eq_refl
              (or_intror eq_refl))
    as [_ [Hcall [Hreply _]]].
  split; [exact Hcall|exact Hreply].
Defined.

(* ===================================================================== *)
(** ** More on the risk classifier *)
(* ===================================================================== *)

Lemma abs_opp (x : number) : Math_abs (- x)%float = Math_abs x.
Proof.
  unfold Math_abs. apply Prim2SF_inj.
  rewrite !abs_spec, opp_spec.
  destruct (Prim2SF x); reflexivity.
Qed.

Lemma div_nan_l (x : number) : (nan / x)%float = nan.
Proof.
  apply Prim2SF_inj. rewrite FloatAxioms.div_spec.
  change (Prim2SF nan) with S754_nan. reflexivity.
Qed.

Lemma div_nan_r (x : number) : (x / nan)%float = nan.
Proof.
  apply Prim2SF_inj. rewrite FloatAxioms.div_spec.
  change (Prim2SF nan) with S754_nan.
  destruct (Prim2SF x); reflexivity.
Qed.

Lemma ltb_nan_r (x : number) : (x <? nan)%float = false.
Proof.
  rewrite FloatAxioms.ltb_spec. change (Prim2SF nan) with S754_nan.
  unfold SFltb. destruct (Prim2SF x); reflexivity.
Qed.

Lemma leb_nan_l (x : number) : (nan <=? x)%float = false.
Proof.
  rewrite FloatAxioms.leb_spec. change (Prim2SF nan) with S754_nan.
  reflexivity.
Qed.

(** The sign of the price change does not matter: a fall is classified as
    the rise of the same size. *)
Theorem getRiskLevel_sign_blind volume marketCap priceChange24h :
  Chatbot.getRiskLevel volume marketCap (- priceChange24h)
  = Chatbot.getRiskLevel volume marketCap priceChange24h.
Proof. now rewrite !getRiskLevel_unfold, abs_opp. Qed.

(** Each tier boundary is one pair of thresholds: the result is VERY_HIGH
    exactly when ratio < 0.05 or volatility > 50, at least HIGH exactly
    when ratio < 0.1 or volatility > 30, and above LOW exactly when
    ratio < 0.15 or volatility > 20. *)
Theorem getRiskLevel_thresholds volume marketCap priceChange24h :
  let liquidityRatio := (volume / marketCap)%float in
  let volatility := Math_abs priceChange24h in
  let tier := Chatbot.getRiskLevel volume marketCap priceChange24h in
  (tier = "VERY_HIGH" <->
   (liquidityRatio <? 0.05)%float = true \/ (50 <? volatility)%float = true)
  /\ (tier = "VERY_HIGH" \/ tier = "HIGH" <->
      (liquidityRatio <? 0.1)%float = true \/ (30 <? volatility)%float = true)
  /\ (tier <> "LOW" <->
      (liquidityRatio <? 0.15)%float = true \/ (20 <? volatility)%float = true).
Proof.
  intros r v tier. subst tier. rewrite getRiskLevel_unfold. fold r v.
  pose proof (fun H => ltb_leb_trans r 0.05 0.1 H eq_refl) as R1.
  pose proof (fun H => ltb_leb_trans r 0.1 0.15 H eq_refl) as R2.
  pose proof (fun H => leb_ltb_trans 30 50 v eq_refl H) as V1.
  pose proof (fun H => leb_ltb_trans 20 30 v eq_refl H) as V2.
  destruct (r <? 0.05)%float eqn:E1; destruct (r <? 0.1)%float eqn:E2;
    destruct (r <? 0.15)%float eqn:E3; destruct (50 <? v)%float eqn:E4;
    destruct (30 <? v)%float eqn:E5; destruct (20 <? v)%float eqn:E6;
    try (specialize (R1 eq_refl); discriminate R1);
    try (specialize (R2 eq_refl); discriminate R2);
    try (specialize (V1 eq_refl); discriminate V1);
    try (specialize (V2 eq_refl); discriminate V2);
    simpl; repeat split; intros; try tauto; try discriminate;
    try (intuition discriminate).
Qed.

(** A coin whose volume or market cap is not a number is never flagged by
    its liquidity: its tier is the one the volatility gives, and when the
    price change is not a number either the tier is LOW. *)
Theorem getRiskLevel_not_a_number volume marketCap priceChange24h :
  Chatbot.getRiskLevel nan marketCap priceChange24h
    = volatility_tier (Math_abs priceChange24h)
  /\ Chatbot.getRiskLevel volume nan priceChange24h
    = volatility_tier (Math_abs priceChange24h)
  /\ Chatbot.getRiskLevel nan marketCap nan = "LOW"
  /\ Chatbot.getRiskLevel volume nan nan = "LOW".
Proof.
  rewrite !getRiskLevel_unfold, div_nan_l, div_nan_r.
  repeat split.
Qed.

(* ===================================================================== *)
(** ** More on the investment actions *)
(* ===================================================================== *)

Lemma SFcompare_refl x : x <> S754_nan -> SFcompare x x = Some Eq.
Proof.
  destruct x as [s|s| |s m e]; try destruct s; simpl; intros H;
    try reflexivity; try congruence;
    rewrite Z.compare_refl, Pos.compare_cont_refl; reflexivity.
Qed.

Lemma is_nan_Prim2SF (x : number) :
  PrimFloat.is_nan x = true -> Prim2SF x = S754_nan.
Proof.
  unfold PrimFloat.is_nan. rewrite FloatAxioms.eqb_spec. unfold SFeqb.
  destruct (Prim2SF x) as [s|s| |s m e] eqn:E; [| |reflexivity|];
    rewrite SFcompare_refl by discriminate; discriminate.
Qed.

Lemma ltb_is_nan (a b : number) :
  PrimFloat.is_nan a = true \/ PrimFloat.is_nan b = true ->
  (a <? b)%float = false.
Proof.
  intros H. rewrite FloatAxioms.ltb_spec. unfold SFltb.
  destruct H as [H|H]; apply is_nan_Prim2SF in H; rewrite H.
  - reflexivity.
  - destruct (Prim2SF a); reflexivity.
Qed.

Lemma leb_is_nan (a b : number) :
  PrimFloat.is_nan a = true -> (a <=? b)%float = false.
Proof.
  intros H. rewrite FloatAxioms.leb_spec. unfold SFleb.
  apply is_nan_Prim2SF in H. now rewrite H.
Qed.

Section MoreInvestment.

Context {toStr : NumberToString}.

Lemma investActionProvider_rejected walletProvider args error :
  getBalance walletProvider = Raised error ->
  Chatbot.investActionProvider walletProvider args
  = ([], Returned ("Investment failed: " ++ message_or_unknown error)).
Proof.
  intros H. unfold Chatbot.investActionProvider. now rewrite H.
Qed.

(** invest_in_coin always returns a reply, calls the swap at most once,
    and calls it exactly when the balance query succeeded and the balance
    is not below the amount: a failed query never leads to a swap. *)
Theorem invest_swaps_only_on_balance walletProvider args :
  let run := Chatbot.investActionProvider walletProvider args in
  let call := SwapCall (Chatbot.tokenAddress args) (Chatbot.amount args)
                (number_or (Chatbot.slippage args) 2) in
  (exists reply, outcome run = Returned reply)
  /\ (swap_calls (trace run) = [] \/ swap_calls (trace run) = [call])
  /\ (swap_calls (trace run) = [call] <->
      exists balance, getBalance walletProvider = Returned balance
                      /\ (balance <? Chatbot.amount args)%float = false).
Proof.
  intros run call. subst run.
  destruct (getBalance walletProvider) as [balance|error] eqn:Hq.
  - destruct (balance <? Chatbot.amount args)%float eqn:Hlt.
    + rewrite (investActionProvider_short walletProvider args balance Hq Hlt).
      split; [simpl; eauto|]. split; [now left|]. split.
      * discriminate.
      * intros (b & Hb & Hb'). congruence.
    + rewrite (investActionProvider_swap walletProvider args balance Hq Hlt).
      split; [simpl; eauto|]. split; [now right|]. split; [eauto|reflexivity].
  - rewrite (investActionProvider_rejected walletProvider args error Hq).
    split; [simpl; eauto|]. split; [now left|]. split.
    + discriminate.
    + intros (b & Hb & _). discriminate.
Qed.

(** invest_in_coin has no check on the amount itself: a zero or negative
    amount is swapped whenever the balance is not negative, where
    invest_in_memecoin refuses the same amount. *)
Theorem invest_amount_unchecked walletProvider args balance :
  getBalance walletProvider = Returned balance ->
  (Chatbot.amount args <=? 0)%float = true ->
  (0 <=? balance)%float = true ->
  swap_calls (trace (Chatbot.investActionProvider walletProvider args))
  = [SwapCall (Chatbot.tokenAddress args) (Chatbot.amount args)
       (number_or (Chatbot.slippage args) 2)]
  /\ outcome (Chatbot.investActionProvider walletProvider args)
     = Returned (Chatbot.invested_message args "0x1234567890abcdef")
  /\ Memecoin.investActionProvider walletProvider
       (Memecoin.mkInvestArgs (Chatbot.tokenAddress args)
          (Chatbot.amount args) (Chatbot.slippage args))
     = ([], Returned "Error: Investment amount must be greater than 0").
Proof.
  intros Hq Ha Hb.
  assert (Hlt : (balance <? Chatbot.amount args)%float = false).
  { destruct (balance <? Chatbot.amount args)%float eqn:E; [|reflexivity].
    pose proof (ltb_leb_trans _ _ _ E Ha) as Hneg.
    now rewrite (leb_not_ltb _ _ Hb) in Hneg. }
  rewrite (investActionProvider_swap walletProvider args balance Hq Hlt).
  split; [reflexivity|]. split; [reflexivity|].
  unfold Memecoin.investActionProvider. simpl. now rewrite Ha.
Qed.

(** invest_in_memecoin never looks at the wallet: it refuses an amount
    that is zero or negative with an error string and without any effect,
    and for a positive amount it calls the swap once, with that amount and
    the slippage given or 2, and reports the transaction hash. *)
Theorem memecoin_invest_guard walletProvider args :
  let run := Memecoin.investActionProvider walletProvider args in
  let call := SwapCall (Memecoin.tokenAddress args) (Memecoin.amount args)
                (number_or (Memecoin.slippage args) 2) in
  (forall otherWallet, Memecoin.investActionProvider otherWallet args = run)
  /\ ((Memecoin.amount args <=? 0)%float = true ->
      run = ([], Returned "Error: Investment amount must be greater than 0"))
  /\ ((0 <? Memecoin.amount args)%float = true ->
      swap_calls (trace run) = [call]
      /\ outcome run
         = Returned ("Successfully invested "
                     ++ Number_toString (Memecoin.amount args) ++ " ETH in "
                     ++ Memecoin.tokenAddress args
                     ++ ". TX Hash: 0x1234567890abcdef")).
Proof.
  intros run call. subst run call.
  split; [reflexivity|]. split.
  - intros H. unfold Memecoin.investActionProvider. now rewrite H.
  - intros H.
    assert (Hle : (Memecoin.amount args <=? 0)%float = false).
    { destruct (Memecoin.amount args <=? 0)%float eqn:E; [|reflexivity].
      now rewrite (leb_not_ltb _ _ E) in H. }
    unfold Memecoin.investActionProvider. rewrite Hle. split; reflexivity.
Qed.

End MoreInvestment.

Lemma invest_amount_unchecked_witness :
  (-1 <=? 0)%float = true
  /\ swap_calls (trace (Chatbot.investActionProvider (toStr := integer_toString)
                          (wallet_with 0) (invest_request (-1) None)))
     = [SwapCall "0xabc" (-1) 2].
Proof.
  split; [reflexivity|].
  exact (proj1 (invest_amount_unchecked (toStr := integer_toString)
                  (wallet_with 0) (invest_request (-1) None) 0
                  eq_refl eq_refl eq_refl)).
Defined.

Lemma memecoin_invest_guard_witness :
  Memecoin.investActionProvider (toStr := integer_toString) (wallet_with 0)
    (Memecoin.mkInvestArgs "0xabc" 0 None)
  = ([], Returned "Error: Investment amount must be greater than 0")
  /\ swap_calls (trace (Memecoin.investActionProvider (toStr := integer_toString)
                          (wallet_with 0) (Memecoin.mkInvestArgs "0xabc" 3 (Some 5%float))))
     = [SwapCall "0xabc" 3 5]
  /\ outcome (Memecoin.investActionProvider (toStr := integer_toString)
                (wallet_with 0) (Memecoin.mkInvestArgs "0xabc" 3 (Some 5%float)))
     = Returned "Successfully invested 3 ETH in 0xabc. TX Hash: 0x1234567890abcdef".
Proof.
  split.
  - destruct (memecoin_invest_guard (toStr := integer_toString) (wallet_with 0)
                (Memecoin.mkInvestArgs "0xabc" 0 None)) as [_ [H _]].
    apply H. reflexivity.
  - destruct (memecoin_invest_guard (toStr := integer_toString) (wallet_with 0)
                (Memecoin.mkInvestArgs "0xabc" 3 (Some 5%float)))
      as [_ [_ H]].
    exact (H eq_refl).
Defined.

(* ===================================================================== *)
(** ** More on the analysis actions *)
(* ===================================================================== *)

Section MoreAnalysis.

Context {methods : StringMethods} {toStr : NumberToString}.

Lemma createCoinAnalysisAction_eq w key limit :
  Chatbot.createCoinAnalysisAction w key limit
  = (trace (Chatbot.analyzeCoins w (Chatbot.COIN_CATEGORIES key)
              (Chatbot.parse_limit limit)),
     match outcome (Chatbot.analyzeCoins w (Chatbot.COIN_CATEGORIES key)
                      (Chatbot.parse_limit limit)) with
     | Returned data =>
         Returned (Json (Chatbot.mkReport data
                           ("Top " ++ Number_toString (Chatbot.parse_limit limit)
                            ++ " " ++ Chatbot.key_string key ++ " coins analyzed")
                           key (now_iso w)))
     | Raised e => Raised e
     end).
Proof.
  unfold Chatbot.createCoinAnalysisAction.
  destruct (Chatbot.analyzeCoins w _ _) as [t [data|e]]; simpl;
    [rewrite app_nil_r|]; reflexivity.
Qed.

Lemma analyzeCoins_cases w category limit :
  let request :=
    Chatbot.coinsRequest (string_value (COINGECKO_API_KEY w)) category limit in
  Chatbot.analyzeCoins w category limit
  = if not_string (COINGECKO_API_KEY w)
    then ([], Returned (Chatbot.Message "Error: CoinGecko API key not configured."))
    else match provider w request with
         | Returned records =>
             ([HttpGet request],
              Returned (Chatbot.Coins (map Chatbot.analyzeCoin records)))
         | Raised error =>
             ([HttpGet request;
               ConsoleError ("Failed to fetch " ++ category ++ " data:") error],
              Returned (Chatbot.Coins []))
         end.
Proof.
  intros request. unfold Chatbot.analyzeCoins.
  destruct (not_string (COINGECKO_API_KEY w)); [reflexivity|].
  fold request. unfold axios_get.
  destruct (provider w request); reflexivity.
Qed.

(** An analysis action sends at most one request: none when the API key
    is unset or empty, and otherwise one for the category of the action,
    ordered by volume, with the page size given or 10 when none is given.
    Whatever happens the reply is a report with the same message; without
    a key its data is the configuration error text, after a failed
    request it is the empty list. *)
Theorem analysis_action_report w key limit :
  let run := Chatbot.createCoinAnalysisAction w key limit in
  let size := match limit with Some l => l | None => 10%float end in
  let request := Chatbot.coinsRequest (string_value (COINGECKO_API_KEY w))
                   (Chatbot.COIN_CATEGORIES key) size in
  let report data :=
    Json (Chatbot.mkReport data
            ("Top " ++ Number_toString size ++ " " ++ Chatbot.key_string key
             ++ " coins analyzed") key (now_iso w)) in
  http_requests (trace run)
  = (if not_string (COINGECKO_API_KEY w) then [] else [request])
  /\ (exists data, outcome run = Returned (report data))
  /\ (not_string (COINGECKO_API_KEY w) = true ->
      run = ([], Returned (report (Chatbot.Message
                                     "Error: CoinGecko API key not configured."))))
  /\ (forall error,
        not_string (COINGECKO_API_KEY w) = false ->
        provider w request = Raised error ->
        run = ([HttpGet request;
                ConsoleError ("Failed to fetch " ++ Chatbot.COIN_CATEGORIES key
                              ++ " data:") error],
               Returned (report (Chatbot.Coins [])))).
Proof.
  intros run size request report. subst run.
  rewrite createCoinAnalysisAction_eq, analyzeCoins_cases.
  change (Chatbot.parse_limit limit) with size. fold request.
  destruct (not_string (COINGECKO_API_KEY w)) eqn:Hkey.
  - split; [reflexivity|]. split; [eexists; reflexivity|].
    split; [reflexivity|discriminate].
  - destruct (provider w request) as [records|error] eqn:Hp.
    + split; [reflexivity|]. split; [eexists; reflexivity|].
      split; [discriminate|]. intros e _ He. discriminate He.
    + split; [reflexivity|]. split; [eexists; reflexivity|].
      split; [discriminate|]. intros e _ He. injection He as <-. reflexivity.
Qed.

End MoreAnalysis.

Lemma analysis_action_report_witness :
  Chatbot.createCoinAnalysisAction (methods := ascii_methods)
    (toStr := integer_toString)
    (mkWorld (Some "") (fun _ => Returned [doge]) "2025-01-01T00:00:00.000Z")
    Chatbot.ZK None
  = ([], Returned (Json (Chatbot.mkReport
                           (Chatbot.Message "Error: CoinGecko API key not configured.")
                           "Top 10 ZK coins analyzed" Chatbot.ZK
                           "2025-01-01T00:00:00.000Z")))
  /\ Chatbot.createCoinAnalysisAction (methods := ascii_methods)
       (toStr := integer_toString)
       rate_limited_world Chatbot.MEME (Some 2%float)
     = ([HttpGet (Chatbot.coinsRequest "test-key" "meme-token" 2);
         ConsoleError "Failed to fetch meme-token data:" too_many_requests],
        Returned (Json (Chatbot.mkReport (Chatbot.Coins [])
                          "Top 2 MEME coins analyzed" Chatbot.MEME
                          "2025-01-01T00:00:00.000Z"))).
Proof.
  split.
  - destruct (analysis_action_report (methods := ascii_methods)
                (toStr := integer_toString)
                (mkWorld (Some "") (fun _ => Returned [doge])
                   "2025-01-01T00:00:00.000Z") Chatbot.ZK None)
      as [_ [_ [H _]]].
    apply H. reflexivity.
  - destruct (analysis_action_report (methods := ascii_methods)
                (toStr := integer_toString)
                rate_limited_world Chatbot.MEME (Some 2%float))
      as [_ [_ [_ H]]].
    apply (H too_many_requests); reflexivity.
Defined.

(** The reply of analyze_memecoins to a failed request depends on the
    HTTP status alone: 400, 401 and 429 have their own message, and every
    other failure (another status, no response, an error that is not an
    axios error) gets the general one.  The failure is logged once. *)
Theorem memecoin_failure_table {methods : StringMethods} w error :
  not_string (COINGECKO_API_KEY w) = false ->
  provider w (Memecoin.memecoinRequest 10) = Raised error ->
  let specific :=
    match error with
    | AxiosError _ (Some 400%Z) =>
        "Error: Invalid request parameters. Please try different search criteria."
    | AxiosError _ (Some 401%Z) =>
        "Error: Invalid CoinGecko API key. Please check your configuration."
    | AxiosError _ (Some 429%Z) =>
        "Error: API rate limit exceeded. Please try again later."
    | _ => "Error: Failed to fetch market data. Please try again later."
    end in
  Memecoin.memecoinActionProvider w
  = ([HttpGet (Memecoin.memecoinRequest 10);
      ConsoleError "Failed to fetch memecoin data:" error],
     Returned (Text specific)).
Proof.
  intros Hkey Hfail specific.
  rewrite (memecoinActionProvider_on_failure w error Hkey Hfail).
  subst specific. unfold Memecoin.fetch_failure.
  destruct error as [m [st|]|m|d]; simpl; try reflexivity.
  destruct (Z.eqb_spec st 400) as [->|N1]; [reflexivity|].
  destruct (Z.eqb_spec st 401) as [->|N2]; [reflexivity|].
  destruct (Z.eqb_spec st 429) as [->|N3]; [reflexivity|].
  destruct st as [|p|p]; try reflexivity.
  repeat (destruct p as [p|p|]; try reflexivity; try congruence).
Qed.

Lemma memecoin_failure_table_witness :
  Memecoin.memecoinActionProvider (methods := ascii_methods)
    (mock_world (Raised (AxiosError "Request failed with status code 500"
                           (Some 500%Z))))
  = ([HttpGet (Memecoin.memecoinRequest 10);
      ConsoleError "Failed to fetch memecoin data:"
        (AxiosError "Request failed with status code 500" (Some 500%Z))],
     Returned (Text "Error: Failed to fetch market data. Please try again later.")).
Proof.
  apply (memecoin_failure_table (methods := ascii_methods)
           (mock_world (Raised (AxiosError "Request failed with status code 500"
                                  (Some 500%Z))))); reflexivity.
Defined.

(** Every report of analyze_memecoins states the number of coins it
    carries: the message is "Analyzed N memecoins based on market data"
    with N the length of the data, which is the number of records the
    provider sent for the one request of page size 10. *)
Theorem memecoin_report_counts {methods : StringMethods} w report :
  outcome (Memecoin.memecoinActionProvider w) = Returned (Json report) ->
  Memecoin.message report
  = "Analyzed " ++ length_toString (length (Memecoin.data report))
    ++ " memecoins based on market data"
  /\ exists records,
       provider w (Memecoin.memecoinRequest 10) = Returned records
       /\ Memecoin.data report = map Memecoin.analyzeCoin records
       /\ length (Memecoin.data report) = length records
       /\ trace (Memecoin.memecoinActionProvider w)
          = [HttpGet (Memecoin.memecoinRequest 10)].
Proof.
  destruct (not_string (COINGECKO_API_KEY w)) eqn:Hkey.
  { unfold Memecoin.memecoinActionProvider. rewrite Hkey. discriminate. }
  destruct (provider w (Memecoin.memecoinRequest 10)) as [records|error] eqn:Hp.
  - unfold Memecoin.memecoinActionProvider. rewrite Hkey.
    unfold axios_get. rewrite Hp. simpl.
    intros H. injection H as <-. simpl. split; [reflexivity|].
    exists records. rewrite length_map. repeat split.
  - rewrite (memecoinActionProvider_on_failure w error Hkey Hp).
    destruct (fetch_failure_text error) as (t & s & -> & _). discriminate.
Qed.

Lemma memecoin_report_counts_witness :
  exists report,
    outcome (Memecoin.memecoinActionProvider (methods := ascii_methods)
               three_record_world)
    = Returned (Json report)
    /\ Memecoin.message report = "Analyzed 3 memecoins based on market data".
Proof.
  eexists. split; [reflexivity|].
  apply (memecoin_report_counts (methods := ascii_methods) three_record_world).
  reflexivity.
Defined.

(* ===================================================================== *)
(** ** Start-up *)
(* ===================================================================== *)

Lemma string_ind2 (P : string -> Prop) :
  P "" ->
  (forall c, P (String c "")) ->
  (forall c d r, P r -> P (String d r) -> P (String c (String d r))) ->
  forall s, P s.
Proof.
  intros H0 H1 H2 s.
  enough (H : P s /\ forall c, P (String c s)) by apply H.
  induction s as [|d r [IHr IHdr]]; split; auto.
Qed.

Lemma has_backslash_n_cons c t :
  c <> "\"%char -> has_backslash_n (String c t) = has_backslash_n t.
Proof.
  intros Hc. destruct t as [|d t]; [reflexivity|].
  change (has_backslash_n (String c (String d t)))
    with ((Ascii.eqb c "\" && Ascii.eqb d "n") || has_backslash_n (String d t)).
  destruct (Ascii.eqb_spec c "\"%char); [contradiction|reflexivity].
Qed.

Lemma replace_backslash_n_head d r :
  exists h t, replace_backslash_n (String d r) = String h t
              /\ (h = d \/ h = ascii_of_nat 10).
Proof.
  destruct r as [|e r]; simpl; [eauto|].
  destruct (Ascii.eqb d "\" && Ascii.eqb e "n"); eauto.
Qed.

Lemma replace_backslash_n_clean s :
  has_backslash_n (replace_backslash_n s) = false.
Proof.
  induction s as [|c|c d r IHr IHdr] using string_ind2; try reflexivity.
  change (replace_backslash_n (String c (String d r)))
    with (if Ascii.eqb c "\" && Ascii.eqb d "n"
          then String (ascii_of_nat 10) (replace_backslash_n r)
          else String c (replace_backslash_n (String d r))).
  destruct (Ascii.eqb_spec c "\"%char) as [->|Hc]; cbn [andb].
  - destruct (Ascii.eqb_spec d "n"%char) as [->|Hd].
    + rewrite has_backslash_n_cons by (cbv; discriminate). exact IHr.
    + destruct (replace_backslash_n_head d r) as (h & t & E & Hh).
      rewrite E in *.
      change (has_backslash_n (String "\" (String h t)))
        with ((Ascii.eqb "\" "\" && Ascii.eqb h "n")
              || has_backslash_n (String h t)).
      rewrite IHdr, orb_false_r. simpl.
      destruct (Ascii.eqb_spec h "n"%char) as [->|]; [|reflexivity].
      destruct Hh as [Hh|Hh]; [congruence|discriminate Hh].
  - rewrite has_backslash_n_cons by assumption. exact IHdr.
Qed.

Lemma replace_backslash_n_fixed s :
  has_backslash_n s = false -> replace_backslash_n s = s.
Proof.
  induction s as [|c|c d r IHr IHdr] using string_ind2; try reflexivity.
  change (has_backslash_n (String c (String d r)))
    with ((Ascii.eqb c "\" && Ascii.eqb d "n") || has_backslash_n (String d r)).
  change (replace_backslash_n (String c (String d r)))
    with (if Ascii.eqb c "\" && Ascii.eqb d "n"
          then String (ascii_of_nat 10) (replace_backslash_n r)
          else String c (replace_backslash_n (String d r))).
  intros H. apply orb_false_iff in H as [Hp Hrest].
  rewrite Hp, (IHdr Hrest). reflexivity.
Qed.

Lemma replace_backslash_n_length s :
  String.length (replace_backslash_n s) <= String.length s.
Proof.
  induction s as [|c|c d r IHr IHdr] using string_ind2; try (simpl; lia).
  change (replace_backslash_n (String c (String d r)))
    with (if Ascii.eqb c "\" && Ascii.eqb d "n"
          then String (ascii_of_nat 10) (replace_backslash_n r)
          else String c (replace_backslash_n (String d r))).
  destruct (Ascii.eqb c "\" && Ascii.eqb d "n"); simpl in *; lia.
Qed.

Lemma replace_backslash_n_app a b :
  replace_backslash_n (a ++ backslash_n ++ b)
  = replace_backslash_n a ++ LF ++ replace_backslash_n b.
Proof.
  induction a as [|c|c d r IHr IHdr] using string_ind2.
  - reflexivity.
  - cbn [append]. unfold backslash_n. cbn [append].
    change (replace_backslash_n (String c (String "\" (String "n" b))))
      with (if Ascii.eqb c "\" && Ascii.eqb "\" "n"
            then String (ascii_of_nat 10) (replace_backslash_n (String "n" b))
            else String c (replace_backslash_n (String "\" (String "n" b)))).
    change (Ascii.eqb "\" "n") with false. rewrite andb_false_r. reflexivity.
  - change (String c (String d r) ++ backslash_n ++ b)
      with (String c (String d (r ++ backslash_n ++ b))).
    change (replace_backslash_n (String c (String d (r ++ backslash_n ++ b))))
      with (if Ascii.eqb c "\" && Ascii.eqb d "n"
            then String (ascii_of_nat 10)
                   (replace_backslash_n (r ++ backslash_n ++ b))
            else String c (replace_backslash_n (String d (r ++ backslash_n ++ b)))).
    change (replace_backslash_n (String c (String d r)))
      with (if Ascii.eqb c "\" && Ascii.eqb d "n"
            then String (ascii_of_nat 10) (replace_backslash_n r)
            else String c (replace_backslash_n (String d r))).
    destruct (Ascii.eqb c "\" && Ascii.eqb d "n").
    + rewrite IHr. reflexivity.
    + change (String d (r ++ backslash_n ++ b))
        with (String d r ++ backslash_n ++ b).
      rewrite IHdr. reflexivity.
Qed.

(** The private key handed to the wallet provider is the variable with
    every backslash-n pair turned into a line feed: around each pair the
    two sides are converted on their own and joined by a line feed, and a
    key without a pair is passed on as it is.  No pair is left, so that
    doing the replacement again changes nothing, and the key never grows. *)
Theorem private_key_line_breaks env file key :
  env "CDP_API_KEY_PRIVATE_KEY" = Some key ->
  let passed := replace_backslash_n key in
  Chatbot.apiKeyPrivateKey (snd (Chatbot.walletConfig env file)) = Some passed
  /\ (forall before after,
        key = before ++ backslash_n ++ after ->
        passed = replace_backslash_n before ++ LF ++ replace_backslash_n after)
  /\ (has_backslash_n key = false -> passed = key)
  /\ has_backslash_n passed = false
  /\ replace_backslash_n passed = passed
  /\ String.length passed <= String.length key.
Proof.
  intros Hkey passed. subst passed.
  split; [|split; [|split; [|split; [|split]]]].
  - unfold Chatbot.walletConfig. destruct file; simpl; now rewrite Hkey.
  - intros before after ->. apply replace_backslash_n_app.
  - apply replace_backslash_n_fixed.
  - apply replace_backslash_n_clean.
  - apply replace_backslash_n_fixed, replace_backslash_n_clean.
  - apply replace_backslash_n_length.
Qed.

Lemma private_key_line_breaks_witness :
  Chatbot.apiKeyPrivateKey
    (snd (Chatbot.walletConfig
            (env_of [("CDP_API_KEY_PRIVATE_KEY",
                      "BEGIN" ++ backslash_n ++ "abc\" ++ backslash_n ++ "END")])
            NoFile))
  = Some ("BEGIN" ++ LF ++ "abc\" ++ LF ++ "END").
Proof.
  destruct (private_key_line_breaks
              (env_of [("CDP_API_KEY_PRIVATE_KEY",
                        "BEGIN" ++ backslash_n ++ "abc\" ++ backslash_n ++ "END")])
              NoFile
              ("BEGIN" ++ backslash_n ++ "abc\" ++ backslash_n ++ "END") eq_refl)
    as (H & _).
  exact H.
Defined.

Lemma validateEnvironment_cases {methods : StringMethods} env :
  let missing :=
    filter (fun v => not_string (env v)) Chatbot.requiredVars in
  Chatbot.validateEnvironment env
  = match missing with
    | [] =>
        if not_string (env "NETWORK_ID")
        then ([Warn "Warning: NETWORK_ID not set, defaulting to base-sepolia testnet"],
              Finished tt)
        else ([], Finished tt)
    | _ :: _ =>
        (ErrorLine "Error: Required environment variables are not set"
           :: map (fun v => ErrorLine (Chatbot.missingLine v)) missing,
         Exited 1)
    end.
Proof.
  intros missing. unfold Chatbot.validateEnvironment. fold missing.
  destruct missing; reflexivity.
Qed.

(** The start-up check ends the process with code 1 exactly when one of
    OPENAI_API_KEY, CDP_API_KEY_NAME and CDP_API_KEY_PRIVATE_KEY is unset
    or empty.  What it then prints is the heading followed by one line for
    each missing variable, in that order: a line for no variable that is
    set, and no warning about NETWORK_ID even when that is missing too.
    When it does not exit it prints nothing or the NETWORK_ID warning. *)
Theorem validateEnvironment_exit {methods : StringMethods} env :
  let run := Chatbot.validateEnvironment env in
  let required :=
    ["OPENAI_API_KEY"; "CDP_API_KEY_NAME"; "CDP_API_KEY_PRIVATE_KEY"] in
  let line v := ErrorLine (v ++ "=your_" ++ toLowerCase v ++ "_here") in
  (snd run = Exited 1 <->
   exists v, In v required /\ not_string (env v) = true)
  /\ (snd run = Exited 1 \/ snd run = Finished tt)
  /\ (snd run = Exited 1 ->
      fst run
      = ErrorLine "Error: Required environment variables are not set"
        :: map line (filter (fun v => not_string (env v)) required)
      /\ (forall v, In v required ->
            (In (line v) (fst run) <-> not_string (env v) = true))
      /\ (forall text, ~ In (Warn text) (fst run)))
  /\ (snd run = Finished tt ->
      fst run = []
      \/ fst run
         = [Warn "Warning: NETWORK_ID not set, defaulting to base-sepolia testnet"]).
Proof.
  intros run required line. subst run required.
  rewrite validateEnvironment_cases.
  unfold Chatbot.requiredVars. cbn [filter].
  destruct (not_string (env "OPENAI_API_KEY")) eqn:E1;
    destruct (not_string (env "CDP_API_KEY_NAME")) eqn:E2;
    destruct (not_string (env "CDP_API_KEY_PRIVATE_KEY")) eqn:E3;
    destruct (not_string (env "NETWORK_ID")) eqn:E4;
    cbn [map fst snd];
    (split; [split; [intros H; try discriminate H; eauto 6 using in_eq, in_cons
                    |intros (v & [<-|[<-|[<-|[]]]] & Hv); congruence]|]);
    (split; [auto|]);
    (split; [|intros H; try discriminate H; auto]);
    intros H; try discriminate H;
    (split; [reflexivity|split]);
    try (intros v [<-|[<-|[<-|[]]]]; rewrite ?E1, ?E2, ?E3;
         unfold line, Chatbot.missingLine; cbn;
         intuition (try discriminate; try congruence));
    try (intros text Hin; cbn in Hin; intuition discriminate).
Qed.

Lemma validateEnvironment_exit_witness :
  Chatbot.validateEnvironment (methods := ascii_methods)
    (env_of [("OPENAI_API_KEY", "sk-1"); ("CDP_API_KEY_NAME", "")])
  = ([ErrorLine "Error: Required environment variables are not set";
      ErrorLine "CDP_API_KEY_NAME=your_cdp_api_key_name_here";
      ErrorLine "CDP_API_KEY_PRIVATE_KEY=your_cdp_api_key_private_key_here"],
     Exited 1).
Proof.
  destruct (validateEnvironment_exit (methods := ascii_methods)
              (env_of [("OPENAI_API_KEY", "sk-1"); ("CDP_API_KEY_NAME", "")]))
    as [_ [_ [H _]]].
  destruct (H eq_refl) as [Hprinted _].
  destruct (Chatbot.validateEnvironment (methods := ascii_methods)
              (env_of [("OPENAI_API_KEY", "sk-1"); ("CDP_API_KEY_NAME", "")]))
    as [printed ending] eqn:E.
  cbn [fst] in Hprinted. rewrite Hprinted.
  f_equal. now injection E as _ <-.
Defined.

(** Once the start-up check has passed, the wallet configuration has its
    two credentials, and its network is never empty: it is NETWORK_ID
    when that is set, and it is base-sepolia exactly when the check
    printed its warning. *)
Theorem config_after_validation {methods : StringMethods} env file :
  snd (Chatbot.validateEnvironment env) = Finished tt ->
  let printed := fst (Chatbot.validateEnvironment env) in
  let config := snd (Chatbot.walletConfig env file) in
  (exists name key,
     Chatbot.apiKeyName config = Some name /\ name <> ""
     /\ env "CDP_API_KEY_PRIVATE_KEY" = Some key /\ key <> ""
     /\ Chatbot.apiKeyPrivateKey config = Some (replace_backslash_n key))
  /\ Chatbot.networkId config <> ""
  /\ ((printed = [Warn "Warning: NETWORK_ID not set, defaulting to base-sepolia testnet"]
       /\ not_string (env "NETWORK_ID") = true
       /\ Chatbot.networkId config = "base-sepolia")
      \/ (printed = []
          /\ env "NETWORK_ID" = Some (Chatbot.networkId config))).
Proof.
  rewrite validateEnvironment_cases.
  unfold Chatbot.requiredVars. cbn [filter].
  destruct (not_string (env "OPENAI_API_KEY")) eqn:E1;
    [intros H; discriminate H|].
  destruct (not_string (env "CDP_API_KEY_NAME")) eqn:E2;
    [intros H; discriminate H|].
  destruct (not_string (env "CDP_API_KEY_PRIVATE_KEY")) eqn:E3;
    [intros H; discriminate H|].
  intros _.
  assert (Hcfg : snd (Chatbot.walletConfig env file)
                 = {| Chatbot.apiKeyName := env "CDP_API_KEY_NAME";
                      Chatbot.apiKeyPrivateKey :=
                        option_map replace_backslash_n (env "CDP_API_KEY_PRIVATE_KEY");
                      Chatbot.cdpWalletData :=
                        string_or_undefined
                          match file with Content text => Some text | _ => None end;
                      Chatbot.networkId := string_or (env "NETWORK_ID") "base-sepolia" |}).
  { destruct file; reflexivity. }
  rewrite Hcfg. cbn [Chatbot.apiKeyName Chatbot.apiKeyPrivateKey Chatbot.networkId].
  split; [|split].
  - destruct (env "CDP_API_KEY_NAME") as [[|c name]|]; try discriminate E2.
    destruct (env "CDP_API_KEY_PRIVATE_KEY") as [[|d key]|]; try discriminate E3.
    eexists _, _. repeat split; discriminate.
  - destruct (env "NETWORK_ID") as [[|c net]|]; discriminate.
  - destruct (env "NETWORK_ID") as [[|c net]|]; cbn; auto.
Qed.

Lemma config_after_validation_witness :
  let env := env_of [("OPENAI_API_KEY", "sk-1"); ("CDP_API_KEY_NAME", "name");
                     ("CDP_API_KEY_PRIVATE_KEY", "a\nb"); ("NETWORK_ID", "")] in
  snd (Chatbot.validateEnvironment (methods := ascii_methods) env) = Finished tt
  /\ Chatbot.networkId (snd (Chatbot.walletConfig env NoFile)) <> "".
Proof.
  intros env. split; [reflexivity|].
  apply (config_after_validation (methods := ascii_methods) env NoFile).
  reflexivity.
Defined.

(** The wallet data reaches the wallet provider exactly when the file
    exists, can be read and is not empty; a file that cannot be read costs
    one line on the console and the start-up goes on without it.  What one
    run saved is what the next run passes on. *)
Theorem wallet_data_passed_on env file :
  let config := snd (Chatbot.walletConfig env file) in
  (forall text, Chatbot.cdpWalletData config = Some text
                <-> file = Content text /\ text <> "")
  /\ (forall error, file = Unreadable error ->
        Chatbot.walletConfig env file
        = ([ErrorValue "Error reading wallet data:" error], config)
        /\ Chatbot.cdpWalletData config = None)
  /\ ((forall error, file <> Unreadable error) ->
      fst (Chatbot.walletConfig env file) = [])
  /\ (forall serialised, serialised <> "" ->
        Chatbot.walletConfig env (Chatbot.saveWallet serialised file)
        = ([], {| Chatbot.apiKeyName := Chatbot.apiKeyName config;
                  Chatbot.apiKeyPrivateKey := Chatbot.apiKeyPrivateKey config;
                  Chatbot.cdpWalletData := Some serialised;
                  Chatbot.networkId := Chatbot.networkId config |})).
Proof.
  intros config. subst config. split; [|split; [|split]].
  - intros text. destruct file as [|e|[|c t]]; cbn; split;
      try discriminate; try (intros [H _]; discriminate H).
    + intros [H N]. injection H as <-. now contradiction N.
    + intros H. injection H as <-. split; [reflexivity|discriminate].
    + intros [H _]. now injection H as <-.
  - intros error ->. split; reflexivity.
  - intros H. destruct file as [|e|t]; try reflexivity.
    now contradiction (H e).
  - intros [|c t] N; [now contradiction N|]. destruct file; reflexivity.
Qed.

Lemma wallet_data_passed_on_witness :
  Chatbot.cdpWalletData
    (snd (Chatbot.walletConfig (env_of []) (Content "seed-1")))
  <> None
  /\ Chatbot.walletConfig (env_of []) (Unreadable (ErrorObject "EACCES"))
     = ([ErrorValue "Error reading wallet data:" (ErrorObject "EACCES")],
        snd (Chatbot.walletConfig (env_of []) (Unreadable (ErrorObject "EACCES")))).
Proof.
  split.
  - destruct (wallet_data_passed_on (env_of []) (Content "seed-1"))
      as [H _].
    intros N.
    assert (Hs : Chatbot.cdpWalletData
                   (snd (Chatbot.walletConfig (env_of [])
                           (Content "seed-1")))
                 = Some "seed-1").
    { apply H. split; [reflexivity|discriminate]. }
    congruence.
  - destruct (wallet_data_passed_on (env_of []) (Unreadable (ErrorObject "EACCES")))
      as [_ [H _]].
    apply (H (ErrorObject "EACCES")). reflexivity.
Defined.

(* ===================================================================== *)
(** ** Trending keywords *)
(* ===================================================================== *)

Lemma formatKeyword_starts keyword :
  exists rest, Chatbot.formatKeyword keyword = String "K" rest.
Proof. unfold Chatbot.formatKeyword. simpl. eauto. Qed.

Lemma join_cons sep part parts :
  parts <> [] ->
  join sep (part :: parts) = part ++ sep ++ join sep parts.
Proof. destruct parts; [congruence|reflexivity]. Qed.

Lemma join_app sep (l1 l2 : list string) :
  l1 <> [] -> l2 <> [] ->
  join sep (l1 ++ l2) = join sep l1 ++ sep ++ join sep l2.
Proof.
  intros H1 H2. induction l1 as [|a l1 IH]; [congruence|].
  destruct l1 as [|b l1].
  - simpl app. now rewrite join_cons.
  - change ((a :: b :: l1) ++ l2)%list with (a :: ((b :: l1) ++ l2))%list.
    rewrite join_cons by discriminate.
    rewrite IH by discriminate.
    rewrite (join_cons sep a (b :: l1)) by discriminate.
    now rewrite !string_app_assoc.
Qed.

(** The text fetch_keyword returns for a response.  Each record gives the
    four lines Keyword, Trending since, Tweets and Status, where a field
    that is missing or an empty string is shown as N/A; the records are
    separated by a blank line.  The text is empty exactly when the response
    has no record, and the text for two non-empty responses put together is
    the two texts with a blank line between. *)
Theorem fetch_keyword_text env get response :
  get (Chatbot.keywordsUrl env) = Returned response ->
  let shown (field : option string) :=
    match field with
    | Some (String c rest) => String c rest
    | Some EmptyString => "N/A"
    | None => "N/A"
    end in
  let block keyword :=
    "Keyword: " ++ shown (Chatbot.trend keyword) ++ LF
    ++ "Trending since: " ++ shown (Chatbot.time keyword) ++ LF
    ++ "Tweets: " ++ shown (Chatbot.volume keyword) ++ LF
    ++ "Status: " ++ shown (Chatbot.timePeriod keyword) in
  let text l := join (LF ++ LF) (map block l) in
  Chatbot.KeyWordActionProvider env get = Returned (text response)
  /\ (forall keyword, text [keyword] = block keyword)
  /\ (text response = "" <-> response = [])
  /\ (forall l1 l2, l1 <> [] -> l2 <> [] ->
        text (l1 ++ l2)%list = text l1 ++ LF ++ LF ++ text l2).
Proof.
  intros Hget shown block text.
  assert (Hblock : forall keyword, Chatbot.formatKeyword keyword = block keyword).
  { intros [[[|c1 t1]|] [[|c2 t2]|] [[|c3 t3]|] [[|c4 t4]|]];
      unfold Chatbot.formatKeyword, block, shown;
      cbn [Chatbot.trend Chatbot.time Chatbot.volume Chatbot.timePeriod
           string_or truthy_string];
      rewrite !string_app_assoc; reflexivity. }
  assert (Hmap : forall l, map Chatbot.formatKeyword l = map block l).
  { intros l. apply map_ext. exact Hblock. }
  split; [|split; [|split]].
  - unfold Chatbot.KeyWordActionProvider. rewrite Hget. subst text.
    cbv beta. now rewrite Hmap.
  - reflexivity.
  - subst text. cbv beta. destruct response as [|k ks]; [split; reflexivity|].
    split; [|discriminate]. intros H. exfalso.
    assert (Hk : exists rest, block k = String "K" rest).
    { unfold block. cbn. eauto. }
    destruct Hk as [rest Hk].
    cbn [map] in H. destruct (map block ks).
    + unfold join in H. cbn [concat] in H. rewrite Hk in H. discriminate.
    + rewrite join_cons in H by discriminate. rewrite Hk in H. discriminate.
  - intros l1 l2 H1 H2. subst text. cbv beta. rewrite map_app.
    rewrite join_app.
    + now rewrite string_app_assoc.
    + destruct l1; [congruence|discriminate].
    + destruct l2; [congruence|discriminate].
Qed.

Lemma fetch_keyword_text_witness :
  Chatbot.KeyWordActionProvider (env_of [])
    (fun _ => Returned [Chatbot.mkKeword None (Some "") (Some "rocq") None])
  = Returned ("Keyword: rocq" ++ LF ++ "Trending since: N/A" ++ LF
              ++ "Tweets: N/A" ++ LF ++ "Status: N/A").
Proof.
  exact (proj1 (fetch_keyword_text (env_of [])
                  (fun _ => Returned [Chatbot.mkKeword None (Some "") (Some "rocq") None])
                  [Chatbot.mkKeword None (Some "") (Some "rocq") None] eq_refl)).
Defined.

(** fetch_keyword asks the trend endpoint even when APIFY_KEYWORDS_API_KEY
    is unset: the token in the address is then the text "undefined".  A
    failed request is answered, not raised: with the message of the error,
    or with "Unknown error" when what was thrown is not an Error. *)
Theorem fetch_keyword_failure env get error :
  get (Chatbot.keywordsUrl env) = Raised error ->
  Chatbot.KeyWordActionProvider env get
  = Returned ("Failed to fetch keywords: "
              ++ match error with
                 | OtherValue _ => "Unknown error"
                 | AxiosError m _ => m
                 | ErrorObject m => m
                 end)
  /\ (env "APIFY_KEYWORDS_API_KEY" = None ->
      Chatbot.keywordsUrl env
      = "https://api.apify.com/v2/datasets/0VEWlmNYYkmymxOC3/items?token=undefined")
  /\ (forall get', get' (Chatbot.keywordsUrl env) = get (Chatbot.keywordsUrl env) ->
        Chatbot.KeyWordActionProvider env get'
        = Chatbot.KeyWordActionProvider env get).
Proof.
  intros Hget. split; [|split].
  - unfold Chatbot.KeyWordActionProvider. rewrite Hget.
    destruct error; reflexivity.
  - intros H. unfold Chatbot.keywordsUrl. now rewrite H.
  - intros get' H. unfold Chatbot.KeyWordActionProvider. now rewrite H.
Qed.

Lemma fetch_keyword_failure_witness :
  Chatbot.KeyWordActionProvider (env_of [])
    (fun address =>
       if String.eqb address
            "https://api.apify.com/v2/datasets/0VEWlmNYYkmymxOC3/items?token=undefined"
       then Raised (OtherValue "timeout")
       else Returned [])
  = Returned "Failed to fetch keywords: Unknown error".
Proof.
  exact (proj1 (fetch_keyword_failure (env_of [])
                  (fun address =>
                     if String.eqb address
                          "https://api.apify.com/v2/datasets/0VEWlmNYYkmymxOC3/items?token=undefined"
                     then Raised (OtherValue "timeout")
                     else Returned [])
                  (OtherValue "timeout") eq_refl)).
Defined.

(* ===================================================================== *)
(** ** The conversation loops *)
(* ===================================================================== *)

Lemma closings_app t1 t2 : closings (t1 ++ t2) = closings t1 + closings t2.
Proof. unfold closings. now rewrite filter_app, length_app. Qed.

Lemma logged_app line t1 t2 :
  logged line (t1 ++ t2) = logged line t1 + logged line t2.
Proof. unfold logged. now rewrite filter_app, length_app. Qed.

Lemma sleeps_app t1 t2 : sleeps (t1 ++ t2) = sleeps t1 + sleeps t2.
Proof. unfold sleeps. now rewrite filter_app, length_app. Qed.

Lemma forwarded_app t1 t2 :
  forwarded (t1 ++ t2) = (forwarded t1 ++ forwarded t2)%list.
Proof. unfold forwarded. now rewrite flat_map_app. Qed.

Lemma printChunk_quiet chunks :
  forwarded (flat_map Chatbot.printChunk chunks) = []
  /\ closings (flat_map Chatbot.printChunk chunks) = 0
  /\ sleeps (flat_map Chatbot.printChunk chunks) = 0.
Proof.
  induction chunks as [|[[a|] [t|]] chunks (IH1 & IH2 & IH3)];
    [repeat split| | | |];
    cbn [flat_map]; rewrite forwarded_app, closings_app, sleeps_app, IH1, IH2, IH3;
    repeat split.
Qed.

Lemma reportError_quiet error :
  forwarded (Chatbot.reportError error) = []
  /\ closings (Chatbot.reportError error) = 0
  /\ sleeps (Chatbot.reportError error) = 0.
Proof. destruct error; repeat split. Qed.

(** chooseMode keeps asking until an answer is a valid choice, and that
    answer decides: after answers that are not valid it returns the mode of
    the first valid one, has rejected each earlier answer with two lines,
    has closed its readline once, and leaves the later lines unread. *)
Theorem chooseMode_first_valid {methods : StringMethods} rejected answer rest mode :
  Forall (fun a => Chatbot.modeOfChoice (trim (toLowerCase a)) = None) rejected ->
  Chatbot.modeOfChoice (trim (toLowerCase answer)) = Some mode ->
  let run := Chatbot.chooseMode (rejected ++ answer :: rest) in
  snd run = Finished (mode, rest)
  /\ logged "Invalid choice. Please try again." (fst run) = 2 * length rejected
  /\ logged "1. chat    - Interactive chat mode" (fst run) = S (length rejected)
  /\ closings (fst run) = 1.
Proof.
  intros Hrej Hans. induction Hrej as [|a rejected Ha _ IH].
  - cbn [app Chatbot.chooseMode]. rewrite Hans. repeat split.
  - rewrite <- app_comm_cons. cbn [Chatbot.chooseMode]. rewrite Ha.
    destruct (Chatbot.chooseMode (rejected ++ answer :: rest)) as [printed ending].
    cbn [fst snd] in *. destruct IH as (IH1 & IH2 & IH3 & IH4).
    rewrite !logged_app, !closings_app, IH2, IH3, IH4.
    split; [exact IH1|]. cbn [length]. repeat split; cbn; lia.
Qed.

Lemma chooseMode_first_valid_witness :
  snd (Chatbot.chooseMode (methods := ascii_methods) ["3"; "  CHAT "; "hello"])
  = Finished (Chatbot.chat, ["hello"])
  /\ closings (fst (Chatbot.chooseMode (methods := ascii_methods)
                      ["3"; "  CHAT "; "hello"])) = 1.
Proof.
  destruct (chooseMode_first_valid (methods := ascii_methods)
              ["3"] "  CHAT " ["hello"] Chatbot.chat)
    as (H1 & _ & _ & H4).
  - repeat constructor.
  - reflexivity.
  - split; [exact H1|exact H4].
Defined.

(** Without a valid answer chooseMode never returns and never closes its
    readline: it has rejected every answer with two lines and is asking
    again.  In general it ends in no other way than returning a mode or
    waiting; it neither exits nor raises. *)
Theorem chooseMode_keeps_asking {methods : StringMethods} answers :
  let run := Chatbot.chooseMode answers in
  (Forall (fun a => Chatbot.modeOfChoice (trim (toLowerCase a)) = None) answers ->
   snd run = Pending
   /\ closings (fst run) = 0
   /\ logged "Invalid choice. Please try again." (fst run) = 2 * length answers
   /\ logged "1. chat    - Interactive chat mode" (fst run) = S (length answers))
  /\ (snd run = Pending \/ exists mode rest, snd run = Finished (mode, rest))
  /\ (snd run = Pending ->
      Forall (fun a => Chatbot.modeOfChoice (trim (toLowerCase a)) = None) answers).
Proof.
  cbv zeta. induction answers as [|a answers (IH1 & IH2 & IH3)].
  - repeat split; auto.
  - cbn [Chatbot.chooseMode].
    destruct (Chatbot.modeOfChoice (trim (toLowerCase a))) as [mode|] eqn:Ha.
    + split; [|split].
      * intros H. inversion H; congruence.
      * right. cbn. eauto.
      * cbn. discriminate.
    + destruct (Chatbot.chooseMode answers) as [printed ending].
      cbn [fst snd] in *. split; [|split].
      * intros H. inversion H as [|? ? _ Hrest]; subst.
        destruct (IH1 Hrest) as (E1 & E2 & E3 & E4).
        rewrite !logged_app, !closings_app, E2, E3, E4.
        split; [exact E1|]. cbn [length]. repeat split; cbn; lia.
      * exact IH2.
      * intros H. constructor; auto.
Qed.

Lemma chooseMode_keeps_asking_witness :
  snd (Chatbot.chooseMode (methods := ascii_methods) ["yes"; "chat mode"; "12"])
  = Pending
  /\ closings (fst (Chatbot.chooseMode (methods := ascii_methods)
                      ["yes"; "chat mode"; "12"])) = 0.
Proof.
  destruct (chooseMode_keeps_asking (methods := ascii_methods)
              ["yes"; "chat mode"; "12"]) as [H _].
  destruct H as (H1 & H2 & _).
  - repeat constructor.
  - split; assumption.
Defined.

Section Loops.

Context {methods : StringMethods}.
Variable AgentState : Type.
Variable stream : AgentState -> string -> list Chunk * option Thrown * AgentState.

(** What one turn of the chat puts on the terminal. *)
Let chatTurn (turn : string * list Chunk) : list Output :=
  Question (LF ++ "Prompt: ") :: Forwarded (fst turn)
  :: flat_map Chatbot.printChunk (snd turn).

(** What one completed cycle of the autonomous mode puts on the terminal. *)
Let cycleTurn (pause : number) (turn : string * list Chunk) : list Output :=
  (Forwarded (fst turn) :: flat_map Chatbot.printChunk (snd turn)
   ++ [Slept pause])%list.

Lemma after_Log line t :
  forwarded (Log line :: t) = forwarded t
  /\ closings (Log line :: t) = closings t
  /\ sleeps (Log line :: t) = sleeps t.
Proof. repeat split. Qed.

Lemma transcript_messages state messages :
  match transcript stream state messages with
  | (completed, None) => map fst completed = messages
  | (completed, Some (m, _, _)) =>
      exists later, messages = (map fst completed ++ m :: later)%list
  end.
Proof.
  revert state.
  induction messages as [|message rest IH]; intros state; cbn [transcript].
  - reflexivity.
  - destruct (stream state message) as [[chunks [error|]] state'].
    + exists rest. reflexivity.
    + specialize (IH state').
      destruct (transcript stream state' rest) as [completed [[[m c] e]|]].
      * destruct IH as [later ->]. exists later. reflexivity.
      * cbn [map fst]. now rewrite IH.
Qed.

Lemma chatTurns_quiet completed :
  forwarded (flat_map chatTurn completed) = map fst completed
  /\ closings (flat_map chatTurn completed) = 0.
Proof.
  induction completed as [|[m chunks] completed [IH1 IH2]];
    [split; reflexivity|].
  cbn [flat_map map fst]. rewrite forwarded_app, closings_app, IH1, IH2.
  unfold chatTurn. cbn [fst snd].
  change (Question (LF ++ "Prompt: ") :: Forwarded m
          :: flat_map Chatbot.printChunk chunks)
    with ([Question (LF ++ "Prompt: "); Forwarded m]
          ++ flat_map Chatbot.printChunk chunks)%list.
  destruct (printChunk_quiet chunks) as (Q1 & Q2 & _).
  rewrite forwarded_app, closings_app, Q1, Q2. split; reflexivity.
Qed.

Lemma cycleTurns_quiet pause completed :
  forwarded (flat_map (cycleTurn pause) completed) = map fst completed
  /\ sleeps (flat_map (cycleTurn pause) completed) = length completed.
Proof.
  induction completed as [|[m chunks] completed [IH1 IH2]];
    [split; reflexivity|].
  cbn [flat_map map fst length]. rewrite forwarded_app, sleeps_app, IH1, IH2.
  unfold cycleTurn. cbn [fst snd].
  change (Forwarded m :: flat_map Chatbot.printChunk chunks ++ [Slept pause])%list
    with ([Forwarded m] ++ flat_map Chatbot.printChunk chunks
          ++ [Slept pause])%list.
  destruct (printChunk_quiet chunks) as (Q1 & _ & Q3).
  rewrite !forwarded_app, !sleeps_app, Q1, Q3. split; reflexivity.
Qed.

Lemma chatLoop_transcript state messages tail :
  Forall (fun m => toLowerCase m <> "exit") messages ->
  (tail = [] \/ exists e rest, tail = e :: rest /\ toLowerCase e = "exit") ->
  Chatbot.chatLoop AgentState stream state (messages ++ tail)
  = match transcript stream state messages with
    | (completed, Some (m, chunks, error)) =>
        ((flat_map chatTurn completed ++ chatTurn (m, chunks))%list,
         Failed error)
    | (completed, None) =>
        ((flat_map chatTurn completed ++ [Question (LF ++ "Prompt: ")])%list,
         match tail with
         | [] => Pending
         | _ :: rest => Finished rest
         end)
    end.
Proof.
  intros Hm Htail. revert state.
  induction Hm as [|message messages Hmsg _ IH]; intros state.
  - cbn [app transcript flat_map].
    destruct Htail as [->|(e & rest & -> & He)]; [reflexivity|].
    cbn [Chatbot.chatLoop]. rewrite He. reflexivity.
  - rewrite <- app_comm_cons. cbn [Chatbot.chatLoop transcript].
    apply String.eqb_neq in Hmsg. rewrite Hmsg.
    destruct (stream state message) as [[chunks [error|]] state'].
    + reflexivity.
    + rewrite IH.
      destruct (transcript stream state' messages) as [completed [[[m c] e]|]];
        cbn [flat_map]; rewrite <- app_assoc; reflexivity.
Qed.

(** Every list of lines splits into the lines before the first "exit" and
    what follows from that line on. *)
Lemma exit_split inputs :
  exists messages tail,
    inputs = (messages ++ tail)%list
    /\ Forall (fun m => toLowerCase m <> "exit") messages
    /\ (tail = [] \/ exists e rest, tail = e :: rest /\ toLowerCase e = "exit").
Proof.
  induction inputs as [|line inputs (messages & tail & -> & Hm & Ht)].
  - exists [], []. auto.
  - destruct (String.eqb_spec (toLowerCase line) "exit") as [E|N].
    + exists [], (line :: messages ++ tail)%list. repeat split; eauto.
    + exists (line :: messages), tail. repeat split; auto.
Qed.

(** The chat follows the agent's conversation on the lines typed before
    the first line that is "exit" in any letter case (spaces around it are
    not removed).  It forwards those lines in order, each after a prompt,
    and prints the chunks of each answer.  When the agent answers them all,
    the chat returns after the "exit" line, closing its readline once and
    leaving the later lines unread, or waits for input when no such line
    was typed.  It ends the process, with code 1 and without closing the
    readline, exactly when the agent failed, and then the failing line is
    the last one forwarded. *)
Theorem runChatMode_forwards state messages tail :
  Forall (fun m => toLowerCase m <> "exit") messages ->
  (tail = [] \/ exists e rest, tail = e :: rest /\ toLowerCase e = "exit") ->
  let run := Chatbot.runChatMode AgentState stream state (messages ++ tail) in
  let prompt := Question (LF ++ "Prompt: ") in
  let turn (t : string * list Chunk) :=
    prompt :: Forwarded (fst t) :: flat_map Chatbot.printChunk (snd t) in
  let start := Log "Starting chat mode... Type 'exit' to end." in
  match transcript stream state messages with
  | (completed, None) =>
      snd run = match tail with
                | [] => Pending
                | _ :: rest => Finished rest
                end
      /\ fst run
         = (start :: flat_map turn completed
            ++ prompt :: match tail with [] => [] | _ :: _ => [Closed] end)%list
      /\ forwarded (fst run) = messages
      /\ closings (fst run) = match tail with [] => 0 | _ :: _ => 1 end
  | (completed, Some (m, chunks, error)) =>
      snd run = Exited 1
      /\ fst run
         = (start :: flat_map turn completed ++ turn (m, chunks)
            ++ Chatbot.reportError error)%list
      /\ forwarded (fst run) = (map fst completed ++ [m])%list
      /\ (exists later, messages = (map fst completed ++ m :: later)%list)
      /\ closings (fst run) = 0
  end.
Proof.
  intros Hm Htail run prompt turn start. subst run.
  change turn with chatTurn. clear turn.
  unfold Chatbot.runChatMode. rewrite (chatLoop_transcript state _ _ Hm Htail).
  pose proof (transcript_messages state messages) as Hmsgs.
  destruct (transcript stream state messages) as [completed [[[m chunks] error]|]].
  - cbn [fst snd].
    destruct (chatTurns_quiet completed) as [F C].
    destruct (chatTurns_quiet [(m, chunks)]) as [F1 C1].
    cbn [flat_map] in F1, C1. rewrite app_nil_r in F1, C1.
    destruct (reportError_quiet error) as (R1 & R2 & _).
    split; [reflexivity|].
    split; [now rewrite <- app_comm_cons, <- app_assoc|].
    rewrite <- app_comm_cons.
    rewrite (proj1 (after_Log _ _)), (proj1 (proj2 (after_Log _ _))).
    rewrite !forwarded_app, !closings_app, F, C, F1, C1, R1, R2.
    split; [cbn; now rewrite app_nil_r|]. split; [exact Hmsgs|reflexivity].
  - destruct (chatTurns_quiet completed) as [F C].
    destruct tail as [|e rest]; cbn [fst snd].
    + split; [reflexivity|]. split; [reflexivity|].
      rewrite (proj1 (after_Log _ _)), (proj1 (proj2 (after_Log _ _))).
      rewrite !forwarded_app, !closings_app, F, C, Hmsgs.
      split; [cbn; now rewrite app_nil_r|reflexivity].
    + split; [reflexivity|].
      split; [now rewrite <- app_comm_cons, <- app_assoc|].
      rewrite <- app_comm_cons.
      rewrite (proj1 (after_Log _ _)), (proj1 (proj2 (after_Log _ _))).
      rewrite !forwarded_app, !closings_app, F, C, Hmsgs.
      split; [cbn; now rewrite !app_nil_r|reflexivity].
Qed.

Lemma autonomousLoop_transcript cycles state interval :
  Chatbot.autonomousLoop AgentState stream cycles state interval
  = match transcript stream state (repeat Chatbot.thought cycles) with
    | (completed, Some (m, chunks, error)) =>
        ((flat_map (cycleTurn (interval * 1000)) completed
          ++ Forwarded m :: flat_map Chatbot.printChunk chunks
          ++ Chatbot.reportError error)%list, Exited 1)
    | (completed, None) =>
        (flat_map (cycleTurn (interval * 1000)) completed, Pending)
    end.
Proof.
  revert state. induction cycles as [|cycles IH]; intros state.
  - reflexivity.
  - cbn [Chatbot.autonomousLoop repeat transcript].
    destruct (stream state Chatbot.thought) as [[chunks [error|]] state'].
    + reflexivity.
    + rewrite IH.
      destruct (transcript stream state' (repeat Chatbot.thought cycles))
        as [completed [[[m c] e]|]];
        cbn [flat_map];
        change (cycleTurn (interval * 1000) (Chatbot.thought, chunks))
          with (Forwarded Chatbot.thought :: flat_map Chatbot.printChunk chunks
                ++ [Slept (interval * 1000)])%list;
        rewrite <- ?app_comm_cons, <- !app_assoc; reflexivity.
Qed.

(** The autonomous mode follows the agent's conversation on the same fixed
    prompt sent again and again.  After any number of cycles it has not
    returned: it is still running when the agent answered every prompt, and
    the process has exited with code 1 exactly when the agent failed.  Each
    completed cycle is followed by one pause of the interval (10 seconds
    when none is given) in milliseconds; the failed cycle is not. *)
Theorem runAutonomousMode_never_returns cycles state interval :
  let run := Chatbot.runAutonomousMode AgentState stream cycles state interval in
  let pause :=
    Slept (match interval with Some i => i | None => 10 end * 1000)%float in
  let cycle (t : string * list Chunk) :=
    Forwarded (fst t) :: flat_map Chatbot.printChunk (snd t) in
  let start := Log "Starting autonomous mode..." in
  match transcript stream state (repeat Chatbot.thought cycles) with
  | (completed, None) =>
      snd run = Pending
      /\ fst run = start :: flat_map (fun t => cycle t ++ [pause])%list completed
      /\ length completed = cycles
      /\ forwarded (fst run) = repeat Chatbot.thought cycles
      /\ sleeps (fst run) = cycles
  | (completed, Some (m, chunks, error)) =>
      snd run = Exited 1
      /\ fst run
         = (start :: flat_map (fun t => cycle t ++ [pause]) completed
            ++ cycle (m, chunks) ++ Chatbot.reportError error)%list
      /\ length completed < cycles
      /\ forwarded (fst run) = repeat Chatbot.thought (S (length completed))
      /\ sleeps (fst run) = length completed
  end.
Proof.
  intros run pause cycle start. subst run.
  unfold Chatbot.runAutonomousMode. rewrite autonomousLoop_transcript.
  set (i := match interval with Some i => i | None => 10%float end) in *.
  change (fun t => cycle t ++ [pause])%list with (cycleTurn (i * 1000)).
  pose proof (transcript_messages state (repeat Chatbot.thought cycles)) as Hmsgs.
  destruct (transcript stream state (repeat Chatbot.thought cycles))
    as [completed [[[m chunks] error]|]]; cbn [fst snd].
  - destruct Hmsgs as [later Hmsgs].
    destruct (cycleTurns_quiet (i * 1000) completed) as [F S].
    destruct (printChunk_quiet chunks) as (Q1 & _ & Q3).
    destruct (reportError_quiet error) as (R1 & _ & R3).
    assert (Hlen : length completed < cycles).
    { apply (f_equal (@length string)) in Hmsgs.
      rewrite repeat_length, length_app, length_map in Hmsgs. cbn in Hmsgs. lia. }
    assert (Hfw : (map fst completed ++ [m])%list
                  = repeat Chatbot.thought (Datatypes.S (length completed))).
    { change (m :: later) with ([m] ++ later)%list in Hmsgs.
      rewrite app_assoc in Hmsgs.
      apply repeat_eq_app in Hmsgs as [Hpre _].
      rewrite <- Hpre. f_equal. rewrite length_app, length_map. cbn. lia. }
    split; [reflexivity|]. split; [reflexivity|]. split; [exact Hlen|].
    rewrite (proj1 (after_Log _ _)), (proj2 (proj2 (after_Log _ _))).
    change (Forwarded m :: flat_map Chatbot.printChunk chunks
            ++ Chatbot.reportError error)%list
      with ([Forwarded m] ++ flat_map Chatbot.printChunk chunks
            ++ Chatbot.reportError error)%list.
    rewrite !forwarded_app, !sleeps_app, F, S, Q1, Q3, R1, R3.
    change (forwarded [Forwarded m]) with [m].
    change (sleeps [Forwarded m]) with 0.
    cbn [app]. rewrite Hfw. split; [reflexivity|lia].
  - destruct (cycleTurns_quiet (i * 1000) completed) as [F S].
    assert (Hlen : length completed = cycles).
    { apply (f_equal (@length string)) in Hmsgs.
      now rewrite repeat_length, length_map in Hmsgs. }
    split; [reflexivity|]. split; [reflexivity|]. split; [exact Hlen|].
    rewrite (proj1 (after_Log _ _)), (proj2 (proj2 (after_Log _ _))).
    rewrite F, S, Hmsgs, Hlen. split; reflexivity.
Qed.

End Loops.

Lemma runChatMode_forwards_witness :
  let run := Chatbot.runChatMode (methods := ascii_methods) nat echo_agent 0
               (["hi"; " exit"] ++ ["EXIT"; "later"]) in
  snd run = Finished ["later"]
  /\ forwarded (fst run) = ["hi"; " exit"]
  /\ closings (fst run) = 1.
Proof.
  intros run.
  pose proof (runChatMode_forwards (methods := ascii_methods) nat echo_agent 0
                ["hi"; " exit"] ["EXIT"; "later"]) as H.
  cbv zeta in H. cbn [transcript echo_agent String.eqb Ascii.eqb Bool.eqb] in H.
  destruct H as (H1 & _ & H3 & H4).
  - repeat constructor; discriminate.
  - right. exists "EXIT", ["later"]. split; reflexivity.
  - split; [exact H1|]. split; [exact H3|exact H4].
Defined.

Lemma runChatMode_failure_witness :
  let run := Chatbot.runChatMode (methods := ascii_methods) nat echo_agent 0
               (["hi"; "boom"; "more"] ++ ["exit"]) in
  snd run = Exited 1
  /\ forwarded (fst run) = ["hi"; "boom"]
  /\ closings (fst run) = 0.
Proof.
  intros run.
  pose proof (runChatMode_forwards (methods := ascii_methods) nat echo_agent 0
                ["hi"; "boom"; "more"] ["exit"]) as H.
  cbv zeta in H. cbn [transcript echo_agent String.eqb Ascii.eqb Bool.eqb] in H.
  destruct H as (H1 & _ & H3 & _ & H5).
  - repeat constructor; discriminate.
  - right. exists "exit", []. split; reflexivity.
  - split; [exact H1|]. split; [exact H3|exact H5].
Defined.

Lemma runAutonomousMode_never_returns_witness :
  snd (Chatbot.runAutonomousMode nat echo_agent 3 0 None) = Pending
  /\ sleeps (fst (Chatbot.runAutonomousMode nat echo_agent 3 0 None)) = 3.
Proof.
  pose proof (runAutonomousMode_never_returns nat echo_agent 3 0 None) as H.
  cbv zeta in H.
  cbn [transcript repeat echo_agent Chatbot.thought String.eqb Ascii.eqb
       Bool.eqb append] in H.
  destruct H as (H1 & _ & _ & _ & H5).
  split; [exact H1|exact H5].
Defined.
